(** * CRUD-M3: the task handler of [lambda_function.py]

    A shallow embedding of the Lambda handler that serves the five task
    routes over a DynamoDB table, and the properties of its specification.

    Layout:
    - Python values, truthiness and the dictionary operations the handler uses;
    - [json.dumps] on those values;
    - exceptions and the state the handler threads (table, uuid draws, stdout);
    - the functions of [lambda_function.py], generic in the table;
    - an in-memory table following the store contract of the specification;
    - the theorems. *)

From Stdlib Require Import ZArith Ascii String List Lia.
From stdpp Require Import base tactics option strings list gmap fin_maps pretty.

Set Warnings "-register-all".

Local Open Scope Z_scope.
Local Open Scope string_scope.

(** ** Python values

    The values that reach the handler are those of a decoded JSON document.
    A [str] is a sequence of code points; the embedding holds the code points
    below 256, one per character of a Rocq string.  JSON numbers with a
    fraction or an exponent (Python floats) and the store's [Decimal] are
    outside the embedding.  A [dict] keeps its insertion order, which is the
    order [json.dumps] writes it in. *)

Inductive value : Type :=
| VNone
| VBool (b : bool)
| VInt (n : Z)
| VStr (s : string)
| VList (l : list value)
| VDict (d : list (string * value)).

Abbreviation dict := (list (string * value)).

(** [chr n], for a code point below 256. *)
Definition chr (n : nat) : string := String (ascii_of_nat n) EmptyString.

(** [bool(v)]: [None], [False], [0], the empty string, list and dict are falsy. *)
Definition truthy (v : value) : bool :=
  match v with
  | VNone => false
  | VBool b => b
  | VInt n => negb (n =? 0)%Z
  | VStr s => match s with EmptyString => false | String _ _ => true end
  | VList l => match l with [] => false | _ :: _ => true end
  | VDict d => match d with [] => false | _ :: _ => true end
  end.

(** [x or y] *)
Definition py_or (x y : value) : value := if truthy x then x else y.

(** [type(v).__name__] *)
Definition type_name (v : value) : string :=
  match v with
  | VNone => "NoneType"
  | VBool _ => "bool"
  | VInt _ => "int"
  | VStr _ => "str"
  | VList _ => "list"
  | VDict _ => "dict"
  end.

(** [v == s] for a string literal [s]: a [str] equals only the same [str]. *)
Definition py_eq_str (v : value) (s : string) : bool :=
  match v with
  | VStr s' => String.eqb s' s
  | _ => false
  end.

(** The entry of key [k], if any. *)
Fixpoint dict_lookup (d : dict) (k : string) : option value :=
  match d with
  | [] => None
  | (k', v) :: d' => if String.eqb k' k then Some v else dict_lookup d' k
  end.

(** [k in d] *)
Definition dict_mem (d : dict) (k : string) : bool :=
  match dict_lookup d k with Some _ => true | None => false end.

(** [d.get(k)]: the value, or [None] for a missing key. *)
Definition dict_get (d : dict) (k : string) : value :=
  match dict_lookup d k with Some v => v | None => VNone end.

(** [d[k] = v]: replaces the value of an existing key in place, else appends. *)
Fixpoint dict_set (d : dict) (k : string) (v : value) : dict :=
  match d with
  | [] => [(k, v)]
  | (k', v') :: d' =>
      if String.eqb k' k then (k', v) :: d' else (k', v') :: dict_set d' k v
  end.

(** [d] without the key [k]. *)
Definition dict_remove (d : dict) (k : string) : dict :=
  filter (fun p => negb (String.eqb (fst p) k)) d.

(** [sub in s] on strings: [sub] occurs in [s]. *)
Fixpoint substring_of (sub s : string) : bool :=
  String.prefix sub s ||
  match s with
  | EmptyString => false
  | String _ s' => substring_of sub s'
  end.

(** ** json.dumps

    [json.dumps] with its defaults: [ensure_ascii=True], separators [", "]
    and [": "].  A string is written between quotes; the quote, the
    backslash and every character outside [' '..'~'] are escaped. *)

Definition dquote : string := chr 34.
Definition backslash : string := chr 92.

Definition hex_digit (n : N) : string :=
  match n with
  | 0 => "0" | 1 => "1" | 2 => "2" | 3 => "3" | 4 => "4" | 5 => "5" | 6 => "6"
  | 7 => "7" | 8 => "8" | 9 => "9" | 10 => "a" | 11 => "b" | 12 => "c"
  | 13 => "d" | 14 => "e" | _ => "f"
  end%N.

(** ['\\u{0:04x}'.format(n)] *)
Definition escape_u (n : N) : string :=
  backslash +:+ "u" +:+ hex_digit (n / 4096 mod 16) +:+ hex_digit (n / 256 mod 16)
            +:+ hex_digit (n / 16 mod 16) +:+ hex_digit (n mod 16).

Definition escape_char (c : ascii) : string :=
  let n := N_of_ascii c in
  if (n =? 34)%N then backslash +:+ dquote
  else if (n =? 92)%N then backslash +:+ backslash
  else if (n =? 10)%N then backslash +:+ "n"
  else if (n =? 13)%N then backslash +:+ "r"
  else if (n =? 9)%N then backslash +:+ "t"
  else if (n =? 8)%N then backslash +:+ "b"
  else if (n =? 12)%N then backslash +:+ "f"
  else if ((32 <=? n) && (n <=? 126))%N then String c EmptyString
  else escape_u n.

Fixpoint escape_string (s : string) : string :=
  match s with
  | EmptyString => EmptyString
  | String c s' => escape_char c +:+ escape_string s'
  end.

Definition encode_basestring_ascii (s : string) : string :=
  dquote +:+ escape_string s +:+ dquote.

Fixpoint json_dumps (v : value) : string :=
  match v with
  | VNone => "null"
  | VBool true => "true"
  | VBool false => "false"
  | VInt n => pretty n
  | VStr s => encode_basestring_ascii s
  | VList l => "[" +:+ String.concat ", " (map json_dumps l) +:+ "]"
  | VDict d =>
      "{" +:+ String.concat ", "
                (map (fun p => encode_basestring_ascii (fst p) +:+ ": " +:+ json_dumps (snd p)) d)
          +:+ "}"
  end.

(** ** Exceptions and state

    An exception is its class and its message; [str(e)] is the message.
    A raise keeps the effects that came before it. *)

Record exn := Exn { exn_class : string; exn_msg : string }.

Definition str_exn (e : exn) : string := exn_msg e.

Inductive outcome (A : Type) : Type :=
| Return (a : A)
| Raise (e : exn).
Arguments Return {A} a.
Arguments Raise {A} e.

Definition AttributeError (msg : string) : exn := Exn "AttributeError" msg.
Definition TypeError (msg : string) : exn := Exn "TypeError" msg.

(** [v.get(k)]: only a dict has the method. *)
Definition py_get (v : value) (k : string) : outcome value :=
  match v with
  | VDict d => Return (dict_get d k)
  | _ => Raise (AttributeError ("'" +:+ type_name v +:+ "' object has no attribute 'get'"))
  end.

(** [k in v] for a string [k]: a key of a dict, an element of a list, a
    substring of a string; the other types are no containers. *)
Definition py_in (k : string) (v : value) : outcome bool :=
  match v with
  | VDict d => Return (dict_mem d k)
  | VList l => Return (existsb (fun x => py_eq_str x k) l)
  | VStr s => Return (substring_of k s)
  | _ => Raise (TypeError ("argument of type '" +:+ type_name v +:+ "' is not iterable"))
  end.

(** [v[k]] for a string [k]. *)
Definition py_getitem (v : value) (k : string) : outcome value :=
  match v with
  | VDict d =>
      match dict_lookup d k with
      | Some x => Return x
      | None => Raise (Exn "KeyError" ("'" +:+ k +:+ "'"))
      end
  | VList _ => Raise (TypeError "list indices must be integers or slices, not str")
  | VStr _ => Raise (TypeError "string indices must be integers, not 'str'")
  | _ => Raise (TypeError ("'" +:+ type_name v +:+ "' object is not subscriptable"))
  end.

(** The state of one process: the table, the number of UUIDs drawn so far,
    and the lines printed. *)
Record world (T : Type) : Type := World {
  table : T;
  uuid_calls : nat;
  stdout : list string
}.
Arguments World {T} _ _ _.
Arguments table {T} _.
Arguments uuid_calls {T} _.
Arguments stdout {T} _.

Definition M (T A : Type) : Type := world T -> outcome A * world T.

Definition ret {T A} (a : A) : M T A := fun w => (Return a, w).

Definition bind {T A B} (m : M T A) (k : A -> M T B) : M T B :=
  fun w =>
    match m w with
    | (Return a, w') => k a w'
    | (Raise e, w') => (Raise e, w')
    end.

(** [try: m  except Exception as e: h e] *)
Definition try_except {T A} (m : M T A) (h : exn -> M T A) : M T A :=
  fun w =>
    match m w with
    | (Return a, w') => (Return a, w')
    | (Raise e, w') => h e w'
    end.

(** A pure step that may raise. *)
Definition lift {T A} (o : outcome A) : M T A := fun w => (o, w).

(** A call on the table. *)
Definition on_table {T A} (f : T -> outcome A * T) : M T A :=
  fun w =>
    let (o, t') := f (table w) in
    (o, World t' (uuid_calls w) (stdout w)).

(** [print(line)] *)
Definition print {T} (line : string) : M T unit :=
  fun w => (Return tt, World (table w) (uuid_calls w) (stdout w ++ [line])).

Notation "'do' x <- m ; k" := (bind m (fun x => k))
  (at level 10, x name, m at level 100, k at level 200).
Notation "'do_' m ; k" := (bind m (fun _ => k))
  (at level 10, m at level 100, k at level 200).

(** ** The table

    [boto3]'s [Table] resource, as far as the handler uses it.  A call takes
    its keyword arguments in the order given below and returns the response
    dict or raises; the handler is generic in the implementation. *)

(** The filter of a scan: [Attr(name).eq(v)]. *)
Inductive condition : Type := AttrEq (name : string) (v : value).

Class Table (T : Type) : Type := {
  (** [get_item(Key=...)] *)
  get_item : dict -> T -> outcome dict * T;
  (** [put_item(Item=...)] *)
  put_item : dict -> T -> outcome dict * T;
  (** [update_item(Key=..., UpdateExpression=..., ExpressionAttributeValues=..., ReturnValues=...)] *)
  update_item : dict -> string -> dict -> string -> T -> outcome dict * T;
  (** [delete_item(Key=...)] *)
  delete_item : dict -> T -> outcome dict * T;
  (** [scan()] and [scan(FilterExpression=...)] *)
  scan : option condition -> T -> outcome dict * T
}.

(** ** lambda_function.py *)

(** The dict [response] returns. *)
Record envelope : Type := Envelope {
  statusCode : Z;
  headers : list (string * string);
  body : string
}.

Definition msg_required_fields : string :=
  "Campos 'title' e 'date' s" +:+ chr 227 +:+ "o obrigat" +:+ chr 243 +:+ "rios.".
Definition msg_task_not_found : string :=
  "Tarefa n" +:+ chr 227 +:+ "o encontrada.".
Definition msg_nothing_to_update : string := "Nenhum campo para atualizar.".
Definition msg_date_required : string :=
  "Par" +:+ chr 226 +:+ "metro 'date' " +:+ chr 233 +:+ " obrigat" +:+ chr 243
        +:+ "rio. Ex: /tasks?date=2025-12-04".
Definition msg_id_required : string :=
  "Par" +:+ chr 226 +:+ "metro 'id' " +:+ chr 233 +:+ " obrigat" +:+ chr 243 +:+ "rio.".
Definition msg_route_not_found : string :=
  "Rota n" +:+ chr 227 +:+ "o encontrada.".

(** [{"message": text}] *)
Definition message (text : string) : value := VDict [("message", VStr text)].

(** [DecimalEncoder] only changes how a [Decimal] is written, and no value
    of the embedding is one: [json.dumps(body, cls=DecimalEncoder)] is
    [json_dumps body]. *)
Definition response (status_code : Z) (body : value) : envelope :=
  {| statusCode := status_code;
     headers := [("Content-Type", "application/json");
                 ("Access-Control-Allow-Origin", "*")];
     body := json_dumps body |}.

(** [json.loads(v)]: the decoder is a parameter on strings; another value
    is a [TypeError]. *)
Definition py_json_loads (json_loads : string -> outcome value) (v : value) : outcome value :=
  match v with
  | VStr s => json_loads s
  | _ => Raise (TypeError ("the JSON object must be str, bytes or bytearray, not "
                             +:+ type_name v))
  end.

Section Handlers.

Context {T : Type} `{Table T}.

(** [json.loads] on a string: the decoded value, or the exception raised. *)
Variable json_loads : string -> outcome value.

(** [uuid4 n] is [str(uuid.uuid4())] at the draw number [n] of the process. *)
Variable uuid4 : nat -> string.

Definition uuid4_str : M T string :=
  fun w => (Return (uuid4 (uuid_calls w)),
            World (table w) (S (uuid_calls w)) (stdout w)).

Definition create_task (body : value) : M T envelope :=
  do task_id <- uuid4_str;
  do title <- lift (py_get body "title");
  do description <- lift (py_get body "description");
  do date <- lift (py_get body "date");
  if negb (truthy title) || negb (truthy date) then
    ret (response 400 (message msg_required_fields))
  else
    let item := [("id", VStr task_id);
                 ("title", title);
                 ("description", py_or description (VStr ""));
                 ("date", date)] in
    do_ on_table (put_item item);
    ret (response 201 (VDict item)).

Definition get_task (task_id : value) : M T envelope :=
  do result <- on_table (get_item [("id", task_id)]);
  let item := dict_get result "Item" in
  if negb (truthy item) then
    ret (response 404 (message msg_task_not_found))
  else
    ret (response 200 item).

(** One [if name in body:] block of [update_task]: the two locals after it. *)
Definition update_field (body : value) (name assignment placeholder : string)
    (locals : list string * dict) : M T (list string * dict) :=
  let (update_expression_parts, expression_attribute_values) := locals in
  do present <- lift (py_in name body);
  if present then
    do v <- lift (py_getitem body name);
    ret ((update_expression_parts ++ [assignment])%list,
         dict_set expression_attribute_values placeholder v)
  else ret locals.

(** Lines 61 to 74: the assignments and their values, one block per field. *)
Definition update_locals (body : value) : M T (list string * dict) :=
  let update_expression_parts : list string := [] in
  let expression_attribute_values : dict := [] in
  do locals <- update_field body "title" "title = :t" ":t"
                 (update_expression_parts, expression_attribute_values);
  do locals <- update_field body "description" "description = :d" ":d" locals;
  update_field body "date" "date = :dt" ":dt" locals.

Definition update_task (task_id : value) (body : value) : M T envelope :=
  do locals <- update_locals body;
  let (update_expression_parts, expression_attribute_values) := locals in
  match update_expression_parts with
  | [] => ret (response 400 (message msg_nothing_to_update))
  | _ :: _ =>
      let update_expression := "SET " +:+ String.concat ", " update_expression_parts in
      do attempt <-
        try_except
          (do result <- on_table (update_item [("id", task_id)] update_expression
                                    expression_attribute_values "ALL_NEW");
           ret (inl result))
          (fun e => ret (inr (response 500 (message ("Erro ao atualizar: " +:+ str_exn e)))));
      match attempt with
      | inr failed => ret failed
      | inl result => ret (response 200 (dict_get result "Attributes"))
      end
  end.

Definition delete_task (task_id : value) : M T envelope :=
  do result <- on_table (get_item [("id", task_id)]);
  if negb (dict_mem result "Item") then
    ret (response 404 (message msg_task_not_found))
  else
    do_ on_table (delete_item [("id", task_id)]);
    ret (response 204 (VDict [])).

(** [result.get("Items", [])] *)
Definition items_of (result : dict) : value :=
  match dict_lookup result "Items" with
  | Some items => items
  | None => VList []
  end.

Definition get_tasks_by_date (query_params : value) : M T envelope :=
  do date <- (if truthy query_params then lift (py_get query_params "date")
              else ret VNone);
  if negb (truthy date) then
    ret (response 400 (message msg_date_required))
  else
    do result <- on_table (scan (Some (AttrEq "date" date)));
    ret (response 200 (items_of result)).

(** Lines 127 to 132: the body, decoded when there is one, else the empty dict. *)
Definition parse_body (event : dict) : M T value :=
  if truthy (dict_get event "body") then
    try_except
      (do raw <- lift (py_getitem (VDict event) "body");
       lift (py_json_loads json_loads raw))
      (fun _ => ret (VDict []))
  else ret (VDict []).

(** The [id] path parameter of a route that has one, then the operation. *)
Definition with_task_id (path_params : value) (operation : value -> M T envelope)
  : M T envelope :=
  do task_id <- lift (py_get path_params "id");
  if negb (truthy task_id) then
    ret (response 400 (message msg_id_required))
  else operation task_id.

(** Lines 135 to 169: what stands inside the [try]. *)
Definition dispatch (route_key path_params query_params body : value) : M T envelope :=
  if py_eq_str route_key "POST /tasks" then
    create_task body
  else if py_eq_str route_key "GET /tasks/{id}" then
    with_task_id path_params get_task
  else if py_eq_str route_key "PUT /tasks/{id}" then
    with_task_id path_params (fun task_id => update_task task_id body)
  else if py_eq_str route_key "DELETE /tasks/{id}" then
    with_task_id path_params delete_task
  else if py_eq_str route_key "GET /tasks" then
    do filtered <- lift (py_in "date" query_params);
    if filtered then
      get_tasks_by_date query_params
    else
      do result <- on_table (scan None);
      ret (response 200 (items_of result))
  else
    ret (response 404 (message msg_route_not_found)).

(** The [context] argument is not used. *)
Definition lambda_handler (event : dict) : M T envelope :=
  do_ print ("Evento recebido: " +:+ json_dumps (VDict event));
  let route_key := dict_get event "routeKey" in
  let path_params := py_or (dict_get event "pathParameters") (VDict []) in
  let query_params := py_or (dict_get event "queryStringParameters") (VDict []) in
  do body <- parse_body event;
  try_except
    (dispatch route_key path_params query_params body)
    (fun e =>
       do_ print ("Erro na Lambda: " +:+ str_exn e);
       ret (response 500 (message ("Erro interno: " +:+ str_exn e)))).

End Handlers.

(** ** An in-memory table

    The record store of the specification, section 4.1, behind the calls of
    [Table]: a finite map from the key [id] to the other attributes of the
    record, in the order they were written.  An item read back is
    [{"id": key, ...attributes}]. *)

Abbreviation mem_table := (gmap string dict).

(** [botocore.exceptions.ClientError] *)
Definition ClientError (code operation msg : string) : exn :=
  Exn "ClientError"
      ("An error occurred (" +:+ code +:+ ") when calling the " +:+ operation
         +:+ " operation: " +:+ msg).

Definition schema_error (operation : string) : exn :=
  ClientError "ValidationException" operation
              "The provided key element does not match the schema".

Definition expression_error (operation : string) : exn :=
  ClientError "ValidationException" operation "Invalid UpdateExpression".

Definition missing_key_error (operation : string) : exn :=
  ClientError "ConditionalCheckFailedException" operation "The conditional request failed".

(** The key of [Key={"id": k}]: the table is keyed by the string [id]. *)
Definition key_of (operation : string) (Key : dict) : outcome string :=
  match Key with
  | [(name, VStr k)] => if String.eqb name "id" then Return k else Raise (schema_error operation)
  | _ => Raise (schema_error operation)
  end.

(** The item as the table returns it. *)
Definition item_of (k : string) (attrs : dict) : value := VDict (("id", VStr k) :: attrs).

(** The pieces of [s] between the occurrences of a non-empty [sep]
    ([s.split(sep)]); [skip] characters of a separator are still to pass. *)
Fixpoint split_from (sep : string) (skip : nat) (token : string) (s : string) : list string :=
  match s with
  | EmptyString => [token]
  | String c s' =>
      match skip with
      | S n => split_from sep n token s'
      | O =>
          if String.prefix sep s
          then token :: split_from sep (String.length sep - 1) EmptyString s'
          else split_from sep 0 (token +:+ String c EmptyString) s'
      end
  end.

Definition split (sep s : string) : list string := split_from sep 0 EmptyString s.

(** [name = :placeholder] *)
Definition parse_assignment (a : string) : option (string * string) :=
  match split " = " a with
  | [name; placeholder] => Some (name, placeholder)
  | _ => None
  end.

(** [SET a1, a2, ...]: the assignments, in order. *)
Definition parse_update_expression (e : string) : option (list (string * string)) :=
  if String.prefix "SET " e
  then mapM parse_assignment (split ", " (String.substring 4 (String.length e - 4) e))
  else None.

(** The value of each placeholder; the key attribute cannot be assigned. *)
Definition resolve_assignment (values : dict) (a : string * string) : option (string * value) :=
  if String.eqb (fst a) "id" then None
  else match dict_lookup values (snd a) with
       | Some v => Some (fst a, v)
       | None => None
       end.

Definition apply_assignments (attrs : dict) (assignments : list (string * value)) : dict :=
  foldl (fun d a => dict_set d (fst a) (snd a)) attrs assignments.

(** Structural equality, the comparison of a filter. *)
Fixpoint value_eqb (a b : value) : bool :=
  match a, b with
  | VNone, VNone => true
  | VBool x, VBool y => Bool.eqb x y
  | VInt x, VInt y => (x =? y)%Z
  | VStr x, VStr y => String.eqb x y
  | VList x, VList y =>
      (fix all2 (x y : list value) : bool :=
         match x, y with
         | [], [] => true
         | a' :: x', b' :: y' => value_eqb a' b' && all2 x' y'
         | _, _ => false
         end) x y
  | VDict x, VDict y =>
      (fix all2 (x y : dict) : bool :=
         match x, y with
         | [], [] => true
         | (k, a') :: x', (k', b') :: y' => String.eqb k k' && value_eqb a' b' && all2 x' y'
         | _, _ => false
         end) x y
  | _, _ => false
  end.

(** [Attr(name).eq(v)] on an item: the attribute is there and equals [v]. *)
Definition satisfies (c : condition) (item : value) : bool :=
  match c, item with
  | AttrEq name v, VDict d =>
      match dict_lookup d name with
      | Some x => value_eqb x v
      | None => false
      end
  | _, _ => false
  end.

(** Modelled from the spec: [get(id) -> Task | absent] of section 4.1; the
    store is a service outside the repository. *)
Definition mem_get_item (Key : dict) (t : mem_table) : outcome dict * mem_table :=
  match key_of "GetItem" Key with
  | Raise e => (Raise e, t)
  | Return k =>
      match t !! k with
      | Some attrs => (Return [("Item", item_of k attrs)], t)
      | None => (Return [], t)
      end
  end.

(** Modelled from the spec: [put(task)], "full insert/replace, idempotent on
    id". *)
Definition mem_put_item (Item : dict) (t : mem_table) : outcome dict * mem_table :=
  match dict_lookup Item "id" with
  | Some (VStr k) => (Return [], <[k := dict_remove Item "id"]> t)
  | _ => (Raise (schema_error "PutItem"), t)
  end.

(** Modelled from the spec: [delete(id)], "removes the record if present". *)
Definition mem_delete_item (Key : dict) (t : mem_table) : outcome dict * mem_table :=
  match key_of "DeleteItem" Key with
  | Raise e => (Raise e, t)
  | Return k => (Return [], delete k t)
  end.

(** Modelled from the spec: [updateFields(id, fieldMap)] of section 4.1, the
    store's partial update, which is not part of the repository.  It
    "applies only the given field assignments; does not alter unspecified
    fields; fails distinguishably if the key does not exist".  (DynamoDB's
    own [UpdateItem] creates the item when the key is new; the contract of
    the specification is the one followed here.) *)
Definition mem_update_item (Key : dict) (UpdateExpression : string)
    (ExpressionAttributeValues : dict) (ReturnValues : string) (t : mem_table)
  : outcome dict * mem_table :=
  match key_of "UpdateItem" Key with
  | Raise e => (Raise e, t)
  | Return k =>
      match parse_update_expression UpdateExpression
              ≫= mapM (resolve_assignment ExpressionAttributeValues) with
      | None => (Raise (expression_error "UpdateItem"), t)
      | Some assignments =>
          match t !! k with
          | None => (Raise (missing_key_error "UpdateItem"), t)
          | Some attrs =>
              let attrs' := apply_assignments attrs assignments in
              (Return (if String.eqb ReturnValues "ALL_NEW"
                       then [("Attributes", item_of k attrs')] else []),
               <[k := attrs']> t)
          end
      end
  end.

Definition mem_items (t : mem_table) : list value :=
  (fun kv => item_of (fst kv) (snd kv)) <$> map_to_list t.

(** Modelled from the spec: [scanAll()] and [scanByDate(date)], a "filter
    equality match" over the whole collection. *)
Definition mem_scan (FilterExpression : option condition) (t : mem_table)
  : outcome dict * mem_table :=
  let items :=
    match FilterExpression with
    | None => mem_items t
    | Some c => filter (fun item => satisfies c item = true) (mem_items t)
    end in
  (Return [("Items", VList items)], t).

#[export] Instance MemTable : Table mem_table := {|
  get_item := mem_get_item;
  put_item := mem_put_item;
  update_item := mem_update_item;
  delete_item := mem_delete_item;
  scan := mem_scan
|}.

(** ** Vocabulary of the statements *)

(** The shape of every envelope [response] builds. *)
Definition well_formed (e : envelope) : Prop :=
  headers e = [("Content-Type", "application/json");
               ("Access-Control-Allow-Origin", "*")]
  /\ exists v : value, body e = json_dumps v.

(** The world [w] with the table replaced by [t]. *)
Definition with_table {T : Type} (w : world T) (t : T) : world T :=
  World t (uuid_calls w) (stdout w).

(** The world [w] after one more UUID was drawn. *)
Definition after_uuid {T : Type} (w : world T) : world T :=
  World (table w) (S (uuid_calls w)) (stdout w).

(** The world [w] after [line] was printed. *)
Definition after_print {T : Type} (w : world T) (line : string) : world T :=
  World (table w) (uuid_calls w) (stdout w ++ [line]).

(** The fields [update_task] looks for, in the order of its blocks. *)
Definition updatable : list string := ["title"; "description"; "date"].

(** Those of them that are keys of the body [d], whatever their values. *)
Definition supplied (d : dict) : list string := List.filter (dict_mem d) updatable.

(** The placeholder the handler writes for a field. *)
Definition placeholder_of (f : string) : string :=
  if String.eqb f "title" then ":t"
  else if String.eqb f "description" then ":d"
  else ":dt".

(** [f = :placeholder] *)
Definition assignment_of (f : string) : string := f +:+ " = " +:+ placeholder_of f.

(** The update expression and the values [update_task] sends for [d]. *)
Definition expression_of (d : dict) : string :=
  "SET " +:+ String.concat ", " (map assignment_of (supplied d)).
Definition values_of (d : dict) : dict :=
  map (fun f => (placeholder_of f, dict_get d f)) (supplied d).

(** The update field map of the body [d]: each supplied field with its value. *)
Definition field_map (d : dict) : list (string * value) :=
  map (fun f => (f, dict_get d f)) (supplied d).

(** The wording of the specification for a required field of [create]: the
    key is missing from the body, or it is there with the empty string. *)
Definition missing_or_empty (d : dict) (k : string) : Prop :=
  dict_lookup d k = None \/ dict_lookup d k = Some (VStr EmptyString).

(** The description of a created record: the one supplied when it is truthy,
    else the empty string. *)
Definition description_of (d : dict) : value :=
  match dict_lookup d "description" with
  | Some v => if truthy v then v else VStr EmptyString
  | None => VStr EmptyString
  end.

(** The attributes of the record [create] builds from the body [d], and the
    record itself, with its id first. *)
Definition created_attrs (d : dict) : dict :=
  [("title", dict_get d "title");
   ("description", description_of d);
   ("date", dict_get d "date")].
Definition created_record (task_id : string) (d : dict) : dict :=
  ("id", VStr task_id) :: created_attrs d.

(** What [lambda_handler] reads off the event before it dispatches. *)
Definition route_key_of (event : dict) : value := dict_get event "routeKey".
Definition path_params_of (event : dict) : value :=
  py_or (dict_get event "pathParameters") (VDict []).
Definition query_params_of (event : dict) : value :=
  py_or (dict_get event "queryStringParameters") (VDict []).

(** The line [lambda_handler] prints first. *)
Definition received_line (event : dict) : string :=
  "Evento recebido: " +:+ json_dumps (VDict event).

(** The body [lambda_handler] dispatches with: the decoded text when the
    event has a truthy body that decodes, the empty dict otherwise. *)
Definition parsed_body (json_loads : string -> outcome value) (event : dict) : value :=
  if truthy (dict_get event "body") then
    match py_json_loads json_loads (dict_get event "body") with
    | Return v => v
    | Raise _ => VDict []
    end
  else VDict [].

(** [lambda_handler] past the decoding of the body: the first line printed,
    then the dispatch under the catch-all. *)
Definition handle_with_body {T : Type} `{Table T} (uuid4 : nat -> string)
    (event : dict) (body : value) (w : world T) : outcome envelope * world T :=
  match dispatch uuid4 (route_key_of event) (path_params_of event)
          (query_params_of event) body (after_print w (received_line event)) with
  | (Return env, w') => (Return env, w')
  | (Raise e, w') =>
      (Return (response 500 (message ("Erro interno: " +:+ str_exn e))),
       after_print w' ("Erro na Lambda: " +:+ str_exn e))
  end.

(** The five routes, and those with an [id] path parameter. *)
Definition routes : list string :=
  ["POST /tasks"; "GET /tasks/{id}"; "PUT /tasks/{id}"; "DELETE /tasks/{id}"; "GET /tasks"].
Definition id_routes : list string :=
  ["GET /tasks/{id}"; "PUT /tasks/{id}"; "DELETE /tasks/{id}"].

(** Every envelope the computation returns was built by [response]. *)
Definition responds {T : Type} (m : M T envelope) : Prop :=
  forall (w w' : world T) (env : envelope),
    m w = (Return env, w') -> exists (status_code : Z) (v : value), env = response status_code v.

(** A decoder for the examples: it knows the text of the empty object and
    rejects every other text, as [json.loads] rejects a malformed one. *)
Definition sample_loads (s : string) : outcome value :=
  if String.eqb s "{}" then Return (VDict [])
  else Raise (Exn "JSONDecodeError" "Expecting value: line 1 column 1 (char 0)").

(** ** Vocabulary of the further properties *)

(** A decoder for the examples that reads every text as the empty list. *)
Definition list_loads (s : string) : outcome value := Return (VList []).

(** The status codes each route can answer with. *)
Definition allowed_statuses (route_key : value) : list Z :=
  if py_eq_str route_key "POST /tasks" then [201; 400; 500]
  else if py_eq_str route_key "GET /tasks/{id}" then [200; 404; 400; 500]
  else if py_eq_str route_key "PUT /tasks/{id}" then [200; 400; 500]
  else if py_eq_str route_key "DELETE /tasks/{id}" then [204; 404; 400; 500]
  else if py_eq_str route_key "GET /tasks" then [200; 400; 500]
  else [404].

(** Every envelope the computation returns has one of the [codes]. *)
Definition answers {T : Type} (codes : list Z) (m : M T envelope) : Prop :=
  forall (w w' : world T) (env : envelope),
    m w = (Return env, w') -> statusCode env ∈ codes.

(** The computation prints nothing and draws no UUID, whether it returns or
    raises. *)
Definition silent {T A : Type} (m : M T A) : Prop :=
  forall (w w' : world T) (o : outcome A),
    m w = (o, w') -> stdout w' = stdout w /\ uuid_calls w' = uuid_calls w.

(** One request seen from the store [t], on the route [route_key], with
    [fresh] the UUID a create would use: the outcome and the store after.
    Either the store is as it was; or a [POST] answered 201 and put the
    created record under [fresh]; or a [PUT] answered 200 and assigned the
    supplied fields of a stored record; or a [DELETE] answered 204 and
    removed a stored record. *)
Inductive store_step (route_key : value) (fresh : string) (t : mem_table)
  : outcome envelope -> mem_table -> Prop :=
| step_none (o : outcome envelope) : store_step route_key fresh t o t
| step_insert (d : dict) :
    route_key = VStr "POST /tasks" ->
    truthy (dict_get d "title") && truthy (dict_get d "date") = true ->
    store_step route_key fresh t
      (Return (response 201 (VDict (created_record fresh d))))
      (<[fresh := created_attrs d]> t)
| step_update (k : string) (attrs d : dict) :
    route_key = VStr "PUT /tasks/{id}" ->
    t !! k = Some attrs ->
    supplied d <> [] ->
    store_step route_key fresh t
      (Return (response 200 (item_of k (apply_assignments attrs (field_map d)))))
      (<[k := apply_assignments attrs (field_map d)]> t)
| step_remove (k : string) (attrs : dict) :
    route_key = VStr "DELETE /tasks/{id}" ->
    t !! k = Some attrs ->
    store_step route_key fresh t (Return (response 204 (VDict []))) (delete k t).

(** Every record of the store has the attributes [title], [description] and
    [date], in this order, and no other. *)
Definition well_shaped (t : mem_table) : Prop :=
  forall (k : string) (attrs : dict), t !! k = Some attrs -> map fst attrs = updatable.

(** A table that is out of service: every call raises. *)
Definition unavailable (operation : string) : exn :=
  ClientError "ServiceUnavailable" operation "Service Unavailable".

#[export] Instance DownTable : Table unit := {|
  get_item := fun _ t => (Raise (unavailable "GetItem"), t);
  put_item := fun _ t => (Raise (unavailable "PutItem"), t);
  update_item := fun _ _ _ _ t => (Raise (unavailable "UpdateItem"), t);
  delete_item := fun _ t => (Raise (unavailable "DeleteItem"), t);
  scan := fun _ t => (Raise (unavailable "Scan"), t)
|}.

(** The characters [' '] to ['~'], and the strings made of them only. *)
Definition printable (c : ascii) : bool :=
  ((32 <=? N_of_ascii c) && (N_of_ascii c <=? 126))%N.

Fixpoint ascii_only (s : string) : bool :=
  match s with
  | EmptyString => true
  | String c s' => printable c && ascii_only s'
  end.

(** * Properties *)

(** ** Dictionaries *)

Lemma dict_get_lookup (d : dict) (k : string) (v : value) :
  dict_lookup d k = Some v -> dict_get d k = v.
Proof. unfold dict_get. intros ->. reflexivity. Qed.

Lemma dict_lookup_set_eq (d : dict) (k : string) (v : value) :
  dict_lookup (dict_set d k v) k = Some v.
Proof.
  induction d as [|[k' v'] d IH]; simpl.
  - rewrite String.eqb_refl. reflexivity.
  - destruct (String.eqb k' k) eqn:E; simpl; rewrite E; [reflexivity | exact IH].
Qed.

Lemma dict_lookup_set_ne (d : dict) (k k' : string) (v : value) :
  k <> k' -> dict_lookup (dict_set d k v) k' = dict_lookup d k'.
Proof.
  intros Hne. induction d as [|[k0 v0] d IH]; simpl.
  - destruct (String.eqb_spec k k'); [contradiction | reflexivity].
  - destruct (String.eqb_spec k0 k) as [->|Hk]; simpl.
    + destruct (String.eqb_spec k k'); [contradiction | reflexivity].
    + destruct (String.eqb k0 k'); [reflexivity | exact IH].
Qed.

Lemma dict_lookup_remove_eq (d : dict) (k : string) :
  dict_lookup (dict_remove d k) k = None.
Proof.
  unfold dict_remove. induction d as [|[k' v'] d IH]; [reflexivity|].
  cbn. destruct (String.eqb k' k) eqn:E; simpl; [exact IH|].
  rewrite E. exact IH.
Qed.

Lemma dict_lookup_remove_ne (d : dict) (k k' : string) :
  k <> k' -> dict_lookup (dict_remove d k) k' = dict_lookup d k'.
Proof.
  intros Hne. unfold dict_remove. induction d as [|[k0 v0] d IH]; [reflexivity|].
  cbn. destruct (String.eqb_spec k0 k) as [->|Hk]; simpl.
  - destruct (String.eqb_spec k k'); [contradiction | exact IH].
  - destruct (String.eqb k0 k'); [reflexivity | exact IH].
Qed.

(** ** json.dumps never writes the empty string *)

Lemma pretty_N_go_nonempty (x : N) (s : string) :
  s <> EmptyString -> pretty_N_go x s <> EmptyString.
Proof.
  revert s. induction (N.lt_wf_0 x) as [x _ IH]; intros s Hs.
  destruct (N.eq_dec x 0%N) as [->|Hx].
  - rewrite pretty_N_go_0. exact Hs.
  - rewrite pretty_N_go_step by lia.
    apply IH; [apply N.div_lt; lia | discriminate].
Qed.

Lemma pretty_positive_nonempty (p : positive) : pretty p <> EmptyString.
Proof.
  unfold pretty, pretty_positive, pretty, pretty_N.
  destruct (decide (N.pos p = 0%N)) as [E|_]; [discriminate E|].
  rewrite pretty_N_go_step by lia.
  apply pretty_N_go_nonempty. discriminate.
Qed.

Lemma pretty_Z_nonempty (n : Z) : pretty n <> EmptyString.
Proof.
  destruct n as [|p|p]; unfold pretty, pretty_Z.
  - discriminate.
  - apply pretty_positive_nonempty.
  - discriminate.
Qed.

Lemma json_dumps_nonempty (v : value) : json_dumps v <> EmptyString.
Proof.
  destruct v as [|[|]|n|s|l|d]; try discriminate.
  apply pretty_Z_nonempty.
Qed.

(** ** The response builder *)

Lemma response_well_formed (status_code : Z) (v : value) :
  well_formed (response status_code v).
Proof. split; [reflexivity | exists v; reflexivity]. Qed.

(** ** Reading and deleting one task, on the in-memory table *)

Lemma with_table_same {T : Type} (w : world T) : with_table w (table w) = w.
Proof. destruct w; reflexivity. Qed.

Lemma get_task_absent (k : string) (w : world mem_table) :
  table w !! k = None ->
  get_task (VStr k) w = (Return (response 404 (message msg_task_not_found)), w).
Proof.
  intros Hk. unfold get_task, bind, on_table; simpl.
  unfold mem_get_item; simpl. rewrite Hk. simpl.
  fold (with_table w (table w)). rewrite with_table_same. reflexivity.
Qed.

Lemma get_task_present (k : string) (attrs : dict) (w : world mem_table) :
  table w !! k = Some attrs ->
  get_task (VStr k) w = (Return (response 200 (item_of k attrs)), w).
Proof.
  intros Hk. unfold get_task, bind, on_table; simpl.
  unfold mem_get_item; simpl. rewrite Hk. simpl.
  fold (with_table w (table w)). rewrite with_table_same. reflexivity.
Qed.

Lemma delete_task_absent (k : string) (w : world mem_table) :
  table w !! k = None ->
  delete_task (VStr k) w = (Return (response 404 (message msg_task_not_found)), w).
Proof.
  intros Hk. unfold delete_task, bind, on_table; simpl.
  unfold mem_get_item; simpl. rewrite Hk. simpl.
  fold (with_table w (table w)). rewrite with_table_same. reflexivity.
Qed.

Lemma delete_task_present (k : string) (attrs : dict) (w : world mem_table) :
  table w !! k = Some attrs ->
  delete_task (VStr k) w
  = (Return (response 204 (VDict [])), with_table w (delete k (table w))).
Proof.
  intros Hk. unfold delete_task, bind, on_table; simpl.
  unfold mem_get_item; simpl. rewrite Hk. reflexivity.
Qed.

(** C7: on the store, [get_task] answers 404 with the not-found message
    exactly when no record has the id, and 200 with the stored record exactly
    when one has; the store is left as it was.  On any table, an envelope that
    [get_task] returns has status 404 or 200, and it raises only what the
    table's [get_item] raised. *)
Theorem get_task_found_iff_stored :
  (forall (k : string) (w : world mem_table),
      (table w !! k = None
       /\ get_task (VStr k) w
          = (Return (response 404 (message msg_task_not_found)), w))
      \/ (exists attrs : dict,
            table w !! k = Some attrs
            /\ get_task (VStr k) w = (Return (response 200 (item_of k attrs)), w)))
  /\ (forall (T : Type) (tbl : Table T) (task_id : value) (w : world T),
        match fst (get_task task_id w) with
        | Return env => statusCode env = 404 \/ statusCode env = 200
        | Raise e => fst (get_item [("id", task_id)] (table w)) = Raise e
        end).
Proof.
  split.
  - intros k w. destruct (table w !! k) as [attrs|] eqn:Hk.
    + right. exists attrs. split; [reflexivity|]. by apply get_task_present.
    + left. split; [reflexivity|]. by apply get_task_absent.
  - intros T tbl task_id w. unfold get_task, bind, on_table.
    destruct (get_item [("id", task_id)] (table w)) as [[result|e] t']; simpl.
    + destruct (truthy (dict_get result "Item")); simpl; auto.
    + reflexivity.
Qed.

(** C4: [delete_task] first reads the record.  If the store has none under
    the id it answers 404 and the store is unchanged.  If it has one it
    removes that record and no other and answers 204; after that [get_task]
    on the id answers 404, and so does a second [delete_task].  On any table
    the read comes first, and [delete_item] is called only when the read
    found an item. *)
Theorem delete_task_removes_record :
  (forall (k : string) (w : world mem_table),
      (table w !! k = None
       /\ delete_task (VStr k) w
          = (Return (response 404 (message msg_task_not_found)), w))
      \/ (exists (attrs : dict) (w' : world mem_table),
            table w !! k = Some attrs
            /\ delete_task (VStr k) w = (Return (response 204 (VDict [])), w')
            /\ w' = with_table w (delete k (table w))
            /\ table w' !! k = None
            /\ (forall k' : string, k' <> k -> table w' !! k' = table w !! k')
            /\ get_task (VStr k) w'
               = (Return (response 404 (message msg_task_not_found)), w')
            /\ delete_task (VStr k) w'
               = (Return (response 404 (message msg_task_not_found)), w')))
  /\ (forall (T : Type) (tbl : Table T) (task_id : value) (w : world T),
        delete_task task_id w
        = match get_item [("id", task_id)] (table w) with
          | (Raise e, t1) => (Raise e, with_table w t1)
          | (Return result, t1) =>
              if dict_mem result "Item" then
                match delete_item [("id", task_id)] t1 with
                | (Return _, t2) => (Return (response 204 (VDict [])), with_table w t2)
                | (Raise e, t2) => (Raise e, with_table w t2)
                end
              else (Return (response 404 (message msg_task_not_found)), with_table w t1)
          end).
Proof.
  split.
  - intros k w. destruct (table w !! k) as [attrs|] eqn:Hk.
    + right. exists attrs, (with_table w (delete k (table w))).
      assert (Hgone : table (with_table w (delete k (table w))) !! k = None)
        by (simpl; apply lookup_delete_eq).
      repeat split.
      * by apply delete_task_present with attrs.
      * exact Hgone.
      * intros k' Hne. simpl. by apply lookup_delete_ne.
      * by apply get_task_absent.
      * by apply delete_task_absent.
    + left. split; [reflexivity|]. by apply delete_task_absent.
  - intros T tbl task_id w. unfold delete_task, bind, on_table, with_table.
    destruct (get_item [("id", task_id)] (table w)) as [[result|e] t1]; simpl;
      [|reflexivity].
    destruct (dict_mem result "Item"); simpl; [|reflexivity].
    destruct (delete_item [("id", task_id)] t1) as [[r|e] t2]; reflexivity.
Qed.

(** ** Updating one task *)

Lemma dict_mem_getitem (d : dict) (f : string) :
  dict_mem d f = true -> py_getitem (VDict d) f = Return (dict_get d f).
Proof.
  unfold dict_mem, py_getitem, dict_get.
  destruct (dict_lookup d f); [reflexivity | discriminate].
Qed.

(** The locals after the three blocks, on a body that is a dict. *)
Lemma update_locals_dict {T : Type} `{Table T} (d : dict) (w : world T) :
  update_locals (VDict d) w
  = (Return (map assignment_of (supplied d), values_of d), w).
Proof.
  unfold update_locals, update_field, values_of, supplied, updatable, bind, lift, ret,
    py_in, py_getitem, dict_mem, dict_get.
  simpl.
  destruct (dict_lookup d "title") eqn:Ht, (dict_lookup d "description") eqn:Hd,
    (dict_lookup d "date") eqn:Hdt; cbn; rewrite ?Ht, ?Hd, ?Hdt; reflexivity.
Qed.

Lemma supplied_spec (d : dict) (f : string) :
  f ∈ supplied d <-> f ∈ updatable /\ dict_mem d f = true.
Proof.
  unfold supplied. rewrite !list_elem_of_In, filter_In. reflexivity.
Qed.

(** [update_task] on a body that is a dict, on any table: the table is
    called, once, only when a field is supplied. *)
Lemma update_task_dict {T : Type} `{Table T} (task_id : value) (d : dict) (w : world T) :
  update_task task_id (VDict d) w
  = match supplied d with
    | [] => (Return (response 400 (message msg_nothing_to_update)), w)
    | _ :: _ =>
        match update_item [("id", task_id)] (expression_of d) (values_of d) "ALL_NEW"
                (table w) with
        | (Raise e, t') =>
            (Return (response 500 (message ("Erro ao atualizar: " +:+ str_exn e))),
             with_table w t')
        | (Return result, t') =>
            (Return (response 200 (dict_get result "Attributes")), with_table w t')
        end
    end.
Proof.
  unfold update_task, bind at 1. rewrite update_locals_dict.
  unfold expression_of.
  destruct (supplied d) as [|f fs] eqn:Hs; [reflexivity|].
  cbn [map]. unfold bind, try_except, on_table, ret, with_table.
  destruct (update_item _ _ _ _ (table w)) as [[result|e] t']; reflexivity.
Qed.

(** ** The in-memory update, on what [update_task] sends *)

Lemma apply_assignments_lookup (assigned : string -> value) (fs : list string)
    (attrs : dict) (name : string) :
  dict_lookup (apply_assignments attrs (map (fun f => (f, assigned f)) fs)) name
  = if decide (name ∈ fs) then Some (assigned name) else dict_lookup attrs name.
Proof.
  unfold apply_assignments. revert attrs.
  induction fs as [|f fs IH]; intros attrs; [reflexivity|].
  cbn [map foldl fst snd]. rewrite IH.
  destruct (decide (name ∈ fs)) as [Hin|Hnin].
  - rewrite decide_True by (right; exact Hin). reflexivity.
  - destruct (decide (f = name)) as [->|Hne].
    + rewrite decide_True by left. apply dict_lookup_set_eq.
    + rewrite decide_False by (intros [->|?]%elem_of_cons; contradiction).
      by apply dict_lookup_set_ne.
Qed.

(** What the table reads off the expression and the values is the field map. *)
Lemma sent_update_is_field_map (d : dict) :
  supplied d <> [] ->
  parse_update_expression (expression_of d) ≫= mapM (resolve_assignment (values_of d))
  = Some (field_map d).
Proof.
  unfold expression_of, values_of, field_map, supplied, updatable. cbn [List.filter].
  intros Hsome.
  destruct (dict_mem d "title"), (dict_mem d "description"), (dict_mem d "date");
    try contradiction;
    match goal with
    | |- context [parse_update_expression ?e] =>
        let p := eval vm_compute in (parse_update_expression e) in
        change (parse_update_expression e) with p
    end; reflexivity.
Qed.

Lemma mem_update_item_supplied (k : string) (d : dict) (t : mem_table) :
  supplied d <> [] ->
  mem_update_item [("id", VStr k)] (expression_of d) (values_of d) "ALL_NEW" t
  = match t !! k with
    | None => (Raise (missing_key_error "UpdateItem"), t)
    | Some attrs =>
        let attrs' := apply_assignments attrs (field_map d) in
        (Return [("Attributes", item_of k attrs')], <[k := attrs']> t)
    end.
Proof.
  intros Hsome. unfold mem_update_item. cbn [key_of String.eqb Ascii.eqb Bool.eqb].
  rewrite (sent_update_is_field_map d Hsome). reflexivity.
Qed.

(** C3: for a body that is a dict, on any table.  With none of [title],
    [description], [date] among its keys, [update_task] answers 400 and the
    world is untouched: the table is not called.  Otherwise it calls
    [update_item] once: whatever the call raises becomes a 500 carrying the
    message of the exception, and a result becomes a 200 carrying its
    [Attributes], the record as the table returned it.  So [update_task]
    itself never raises and its status is 400, 500 or 200, never 404.  On the
    store, whose update fails for an id that has no record, that failure is
    such a 500. *)
Theorem update_task_status {T : Type} `{Table T} (task_id : value) (d : dict) (w : world T) :
  update_task task_id (VDict d) w
  = match supplied d with
    | [] => (Return (response 400 (message msg_nothing_to_update)), w)
    | _ :: _ =>
        match update_item [("id", task_id)] (expression_of d) (values_of d) "ALL_NEW"
                (table w) with
        | (Raise e, t') =>
            (Return (response 500 (message ("Erro ao atualizar: " +:+ str_exn e))),
             with_table w t')
        | (Return result, t') =>
            (Return (response 200 (dict_get result "Attributes")), with_table w t')
        end
    end
  /\ (supplied d = [] <-> forall f : string, f ∈ updatable -> dict_lookup d f = None)
  /\ match fst (update_task task_id (VDict d) w) with
     | Return env => statusCode env = 400 \/ statusCode env = 500 \/ statusCode env = 200
     | Raise _ => False
     end
  /\ (forall (k : string) (wm : world mem_table),
        table wm !! k = None ->
        supplied d <> [] ->
        update_task (VStr k) (VDict d) wm
        = (Return (response 500 (message ("Erro ao atualizar: "
                                            +:+ str_exn (missing_key_error "UpdateItem")))),
           wm)).
Proof.
  split; [apply update_task_dict|]. split; [|split].
  - split.
    + intros Hnone f Hf. destruct (dict_lookup d f) as [v|] eqn:Hlook; [|reflexivity].
      assert (Hin : f ∈ supplied d)
        by (apply supplied_spec; split; [exact Hf | unfold dict_mem; by rewrite Hlook]).
      rewrite Hnone in Hin. by apply elem_of_nil in Hin.
    + intros Hnone. destruct (supplied d) as [|f fs] eqn:Hs; [reflexivity|].
      assert (Hin : f ∈ supplied d) by (rewrite Hs; left).
      apply supplied_spec in Hin as [Hf Hmem].
      unfold dict_mem in Hmem. rewrite (Hnone f Hf) in Hmem. discriminate.
  - rewrite update_task_dict.
    destruct (supplied d); simpl; [auto|].
    destruct (update_item _ _ _ _ (table w)) as [[result|e] t']; simpl; auto.
  - intros k wm Hk Hsome. rewrite update_task_dict.
    destruct (supplied d) as [|f fs] eqn:Hs; [contradiction|].
    change (update_item [("id", VStr k)] (expression_of d) (values_of d) "ALL_NEW" (table wm))
      with (mem_update_item [("id", VStr k)] (expression_of d) (values_of d) "ALL_NEW"
              (table wm)).
    rewrite mem_update_item_supplied by (rewrite Hs; discriminate).
    rewrite Hk, with_table_same. reflexivity.
Qed.

(** An update of a task the store does not have answers 500, not 404. *)
Lemma update_missing_task :
  let w := World (∅ : mem_table) 0%nat [] in
  update_task (VStr "t1") (VDict [("title", VStr "X")]) w
  = (Return (response 500 (message ("Erro ao atualizar: "
                                      +:+ str_exn (missing_key_error "UpdateItem")))),
     w).
Proof.
  intros w.
  refine (proj2 (proj2 (proj2
    (update_task_status (VStr "t1") [("title", VStr "X")] w))) "t1" w _ _).
  - reflexivity.
  - vm_compute. discriminate.
Defined.

(** C2: for a body that is a dict.  The locals [update_task] builds name
    exactly the fields among [title], [description], [date] that are keys of
    the body, each with the value the body gives it, whether that value is
    truthy or not.  When the store has a record under the id and at least one
    field is supplied, what the table reads off the call is that field map,
    and the update succeeds with 200 and the new record: every supplied field
    holds the value of the body, every other attribute of the record is as
    before, and no other record changes. *)
Theorem update_task_changes_only_supplied (d : dict) :
  (forall f : string, f ∈ supplied d <-> f ∈ updatable /\ dict_mem d f = true)
  /\ (forall (T : Type) (tbl : Table T) (w0 : world T),
        update_locals (VDict d) w0
        = (Return (map assignment_of (supplied d), values_of d), w0))
  /\ (forall (k : string) (attrs : dict) (w : world mem_table),
        table w !! k = Some attrs ->
        supplied d <> [] ->
        let attrs' := apply_assignments attrs (field_map d) in
        parse_update_expression (expression_of d)
          ≫= mapM (resolve_assignment (values_of d)) = Some (field_map d)
        /\ update_task (VStr k) (VDict d) w
           = (Return (response 200 (item_of k attrs')),
              with_table w (<[k := attrs']> (table w)))
        /\ (forall f : string,
              f ∈ supplied d -> dict_lookup attrs' f = Some (dict_get d f))
        /\ (forall f : string,
              f ∉ supplied d -> dict_lookup attrs' f = dict_lookup attrs f)
        /\ (forall k' : string,
              k' <> k -> <[k := attrs']> (table w) !! k' = table w !! k')).
Proof.
  split; [apply supplied_spec|].
  split; [intros T tbl w0; apply update_locals_dict|].
  intros k attrs w Hstored Hsome attrs'.
  split; [by apply sent_update_is_field_map|].
  split; [|split; [|split]].
  - rewrite update_task_dict.
    destruct (supplied d) as [|f fs] eqn:Hs; [contradiction|].
    change (update_item [("id", VStr k)] (expression_of d) (values_of d) "ALL_NEW" (table w))
      with (mem_update_item [("id", VStr k)] (expression_of d) (values_of d) "ALL_NEW"
              (table w)).
    rewrite mem_update_item_supplied by (rewrite Hs; discriminate).
    cbn iota.
    rewrite Hstored. reflexivity.
  - intros f Hf. subst attrs'. unfold field_map.
    rewrite (apply_assignments_lookup (dict_get d)). by rewrite decide_True.
  - intros f Hf. subst attrs'. unfold field_map.
    rewrite (apply_assignments_lookup (dict_get d)). by rewrite decide_False.
  - intros k' Hne. by apply lookup_insert_ne.
Qed.

(** [update] with [{"title": "X"}] on a stored record changes the title and
    leaves the description and the date. *)
Lemma update_title_only :
  let stored := [("title", VStr "Buy milk"); ("description", VStr "2L");
                 ("date", VStr "2025-12-04")] in
  let w := World ({["t1" := stored]} : mem_table) 0%nat [] in
  update_task (VStr "t1") (VDict [("title", VStr "X")]) w
  = (Return (response 200 (item_of "t1" [("title", VStr "X"); ("description", VStr "2L");
                                         ("date", VStr "2025-12-04")])),
     with_table w (<["t1" := [("title", VStr "X"); ("description", VStr "2L");
                              ("date", VStr "2025-12-04")]]> (table w))).
Proof.
  intros stored w.
  refine (proj1 (proj2
    (proj2 (proj2 (update_task_changes_only_supplied [("title", VStr "X")]))
       "t1" stored w _ _))).
  - reflexivity.
  - vm_compute. discriminate.
Defined.

(** ** Creating a task *)

Lemma py_or_description (d : dict) :
  py_or (dict_get d "description") (VStr EmptyString) = description_of d.
Proof.
  unfold py_or, description_of, dict_get.
  destruct (dict_lookup d "description") as [v|]; reflexivity.
Qed.

(** [create_task] on a body that is a dict, on any table: one UUID is drawn
    whatever the body; the table is called, once, only past the validation. *)
Lemma create_task_dict {T : Type} `{Table T} (uuid4 : nat -> string) (d : dict)
    (w : world T) :
  create_task uuid4 (VDict d) w
  = if truthy (dict_get d "title") && truthy (dict_get d "date") then
      match put_item (created_record (uuid4 (uuid_calls w)) d) (table w) with
      | (Return _, t') =>
          (Return (response 201 (VDict (created_record (uuid4 (uuid_calls w)) d))),
           with_table (after_uuid w) t')
      | (Raise e, t') => (Raise e, with_table (after_uuid w) t')
      end
    else (Return (response 400 (message msg_required_fields)), after_uuid w).
Proof.
  unfold create_task, bind, uuid4_str, lift, py_get, ret, on_table, with_table, after_uuid.
  cbn [fst snd table uuid_calls stdout].
  rewrite py_or_description.
  destruct (truthy (dict_get d "title")), (truthy (dict_get d "date")); cbn [negb orb andb];
    try reflexivity.
  unfold created_record, created_attrs. cbn [table uuid_calls stdout].
  destruct (put_item _ (table w)) as [[r|e] t']; reflexivity.
Qed.

Lemma missing_or_empty_falsy (d : dict) (k : string) :
  missing_or_empty d k -> truthy (dict_get d k) = false.
Proof. unfold dict_get. intros [-> | ->]; reflexivity. Qed.

(** C1, as the specification states it, fails on a title that is there, is
    not empty, and is falsy: with [{"title": 0, "date": "2025-12-04"}] neither
    field is missing or an empty string, and [create_task] answers 400, not
    201, and stores nothing. *)
Lemma create_task_rejects_zero_title :
  let d := [("title", VInt 0); ("date", VStr "2025-12-04")] in
  let w := World (∅ : mem_table) 0%nat [] in
  ~ missing_or_empty d "title"
  /\ ~ missing_or_empty d "date"
  /\ create_task (fun n => pretty n) (VDict d) w
     = (Return (response 400 (message msg_required_fields)), after_uuid w).
Proof.
  intros d w. split; [|split].
  - intros [E|E]; discriminate E.
  - intros [E|E]; discriminate E.
  - reflexivity.
Qed.

(** C1, amended: for a body that is a dict, on the store.  One UUID is
    drawn; when draws never repeat it differs from every id drawn before.  If
    [title] or [date] is missing or falsy (the empty string is, and so are
    [null], [false], [0] and the empty list and object), [create_task]
    answers 400 and the store is unchanged.  Otherwise it answers 201 with
    the record [{id, title, description, date}], where [id] is the UUID drawn
    and [description] is the empty string when it is omitted or falsy, and
    that record is what the store then holds under [id] and what [get_task]
    reads back. *)
Theorem create_task_validates_and_stores
    (uuid4 : nat -> string) (d : dict) (w : world mem_table) :
  let task_id := uuid4 (uuid_calls w) in
  let w' := with_table (after_uuid w) (<[task_id := created_attrs d]> (table w)) in
  (Inj (=) (=) uuid4 -> forall n : nat, (n < uuid_calls w)%nat -> uuid4 n <> task_id)
  /\ (missing_or_empty d "title" \/ missing_or_empty d "date" ->
      truthy (dict_get d "title") && truthy (dict_get d "date") = false)
  /\ (dict_lookup d "description" = None -> description_of d = VStr EmptyString)
  /\ if truthy (dict_get d "title") && truthy (dict_get d "date") then
       create_task uuid4 (VDict d) w
       = (Return (response 201 (VDict (created_record task_id d))), w')
       /\ table w' !! task_id = Some (created_attrs d)
       /\ (forall k : string, k <> task_id -> table w' !! k = table w !! k)
       /\ get_task (VStr task_id) w'
          = (Return (response 200 (VDict (created_record task_id d))), w')
     else
       create_task uuid4 (VDict d) w
       = (Return (response 400 (message msg_required_fields)), after_uuid w)
       /\ table (after_uuid w) = table w.
Proof.
  intros task_id w'.
  split; [|split; [|split]].
  - intros Hinj n Hn E. apply Hinj in E. lia.
  - intros [Hm|Hm]; apply missing_or_empty_falsy in Hm; rewrite Hm;
      [reflexivity | apply andb_false_r].
  - unfold description_of. intros ->. reflexivity.
  - rewrite create_task_dict.
    destruct (truthy (dict_get d "title") && truthy (dict_get d "date")).
    + assert (Hstored : table w' !! task_id = Some (created_attrs d))
        by (simpl; apply lookup_insert_eq).
      split; [reflexivity|]. split; [exact Hstored|]. split.
      * intros k Hne. simpl. by apply lookup_insert_ne.
      * by apply get_task_present.
    + split; reflexivity.
Qed.

(** The second task of a run: [{"title": "Buy milk", "date": "2025-12-04"}]
    is stored with an empty description under the second UUID, which is not
    the first. *)
Lemma create_buy_milk :
  let uuid4 := fun n : nat => pretty n in
  let d := [("title", VStr "Buy milk"); ("date", VStr "2025-12-04")] in
  let w := World (∅ : mem_table) 1%nat [] in
  uuid4 0%nat <> uuid4 1%nat
  /\ create_task uuid4 (VDict d) w
     = (Return (response 201 (VDict [("id", VStr "1"); ("title", VStr "Buy milk");
                                     ("description", VStr EmptyString);
                                     ("date", VStr "2025-12-04")])),
        World ({["1" := [("title", VStr "Buy milk"); ("description", VStr EmptyString);
                         ("date", VStr "2025-12-04")]]} : mem_table) 2%nat []).
Proof.
  intros uuid4 d w.
  pose proof (create_task_validates_and_stores uuid4 d w) as Hcreate.
  split.
  - apply (proj1 Hcreate pretty_nat_inj 0%nat). simpl. lia.
  - exact (proj1 (proj2 (proj2 (proj2 Hcreate)))).
Defined.

Lemma dict_get_remove_ne (d : dict) (k k' : string) :
  k <> k' -> dict_get (dict_remove d k) k' = dict_get d k'.
Proof. intros Hne. unfold dict_get. by rewrite dict_lookup_remove_ne. Qed.

Lemma dict_get_remove_eq (d : dict) (k : string) :
  dict_get (dict_remove d k) k = VNone.
Proof. unfold dict_get. by rewrite dict_lookup_remove_eq. Qed.

(** C10: [create_task] tests and defaults by truthiness.  The empty string,
    [0], [false] and [null] are falsy.  On any table, a [title] or a [date]
    that is there with a falsy value is answered with 400, and the answer and
    the effects are those for the body without that key.  On the store, a
    [description] that is there with a falsy value, beside a truthy title and
    date, is stored and returned as the empty string, not as the value
    supplied. *)
Theorem create_task_by_truthiness
    (uuid4 : nat -> string) (d : dict) (v : value) (w : world mem_table) :
  truthy v = false ->
  let task_id := uuid4 (uuid_calls w) in
  let stored := [("title", dict_get d "title"); ("description", VStr EmptyString);
                 ("date", dict_get d "date")] in
  Forall (fun x => truthy x = false) [VStr EmptyString; VInt 0; VBool false; VNone]
  /\ (forall (T : Type) (tbl : Table T) (w0 : world T) (key : string),
        key = "title" \/ key = "date" ->
        dict_lookup d key = Some v ->
        create_task uuid4 (VDict d) w0
        = (Return (response 400 (message msg_required_fields)), after_uuid w0)
        /\ create_task uuid4 (VDict d) w0
           = create_task uuid4 (VDict (dict_remove d key)) w0)
  /\ (dict_lookup d "description" = Some v ->
      truthy (dict_get d "title") && truthy (dict_get d "date") = true ->
      create_task uuid4 (VDict d) w
      = (Return (response 201 (VDict (("id", VStr task_id) :: stored))),
         with_table (after_uuid w) (<[task_id := stored]> (table w)))
      /\ create_task uuid4 (VDict d) w
         = create_task uuid4 (VDict (dict_remove d "description")) w).
Proof.
  intros Hv task_id stored. split; [|split].
  - repeat constructor.
  - intros T tbl w0 key Hkey Hlook.
    assert (Hfalsy : truthy (dict_get d key) = false)
      by (rewrite (dict_get_lookup _ _ _ Hlook); exact Hv).
    assert (Hboth : truthy (dict_get d "title") && truthy (dict_get d "date") = false)
      by (destruct Hkey as [-> | ->]; rewrite Hfalsy;
          [reflexivity | apply andb_false_r]).
    assert (Hboth' : truthy (dict_get (dict_remove d key) "title")
                     && truthy (dict_get (dict_remove d key) "date") = false).
    { destruct Hkey as [-> | ->]; rewrite dict_get_remove_eq;
        [reflexivity | apply andb_false_r]. }
    rewrite !create_task_dict, Hboth, Hboth'. split; reflexivity.
  - intros Hlook Hboth.
    assert (Hdescr : description_of d = VStr EmptyString)
      by (unfold description_of; rewrite Hlook, Hv; reflexivity).
    assert (Hdescr' : description_of (dict_remove d "description") = VStr EmptyString)
      by (unfold description_of; rewrite dict_lookup_remove_eq; reflexivity).
    rewrite !create_task_dict.
    rewrite !dict_get_remove_ne by discriminate. rewrite Hboth.
    unfold created_record, created_attrs.
    rewrite !dict_get_remove_ne by discriminate. rewrite Hdescr, Hdescr'.
    split; reflexivity.
Qed.

(** A description of [0] beside a title and a date is stored as the empty
    string. *)
Lemma create_with_zero_description :
  let d := [("title", VStr "Buy milk"); ("description", VInt 0);
            ("date", VStr "2025-12-04")] in
  let w := World (∅ : mem_table) 0%nat [] in
  create_task (fun n => pretty n) (VDict d) w
  = (Return (response 201 (VDict [("id", VStr "0"); ("title", VStr "Buy milk");
                                  ("description", VStr EmptyString);
                                  ("date", VStr "2025-12-04")])),
     World ({["0" := [("title", VStr "Buy milk"); ("description", VStr EmptyString);
                      ("date", VStr "2025-12-04")]]} : mem_table) 1%nat []).
Proof.
  intros d w.
  refine (proj1 (proj2 (proj2
    (create_task_by_truthiness (fun n => pretty n) d (VInt 0) w _)) _ _)).
  - reflexivity.
  - reflexivity.
  - reflexivity.
Defined.

(** ** The router *)

Lemma parse_body_parsed {T : Type} (json_loads : string -> outcome value)
    (event : dict) (w : world T) :
  parse_body json_loads event w = (Return (parsed_body json_loads event), w).
Proof.
  unfold parse_body, parsed_body, try_except, bind, lift, ret, py_getitem, dict_get.
  destruct (dict_lookup event "body") as [raw|]; [|reflexivity].
  destruct (truthy raw); [|reflexivity].
  destruct (py_json_loads json_loads raw); reflexivity.
Qed.

Lemma lambda_handler_handle {T : Type} `{Table T} (json_loads : string -> outcome value)
    (uuid4 : nat -> string) (event : dict) (w : world T) :
  lambda_handler json_loads uuid4 event w
  = handle_with_body uuid4 event (parsed_body json_loads event) w.
Proof.
  unfold lambda_handler, handle_with_body. unfold bind at 1. unfold print at 1.
  unfold bind at 1. rewrite parse_body_parsed.
  unfold try_except, route_key_of, path_params_of, query_params_of, received_line,
    after_print.
  destruct (dispatch _ _ _ _ _ _) as [[env|e] w']; reflexivity.
Qed.

(** The handler at a known route key: down to the operation of that route. *)
Ltac at_route Hroute :=
  rewrite lambda_handler_handle; unfold handle_with_body, dispatch;
  rewrite Hroute; cbn [py_eq_str String.eqb Ascii.eqb Bool.eqb].

Section Responds.

Context {T : Type} `{Table T}.

Lemma responds_ret (status_code : Z) (v : value) :
  responds (T := T) (ret (response status_code v)).
Proof. intros w w' env [= <- _]. eauto. Qed.

Lemma responds_bind {A : Type} (m : M T A) (k : A -> M T envelope) :
  (forall a : A, responds (k a)) -> responds (bind m k).
Proof.
  intros Hk w w' env. unfold bind.
  destruct (m w) as [[a|e] w1]; [apply Hk | discriminate].
Qed.

Lemma responds_create_task (uuid4 : nat -> string) (body : value) :
  responds (create_task uuid4 body).
Proof.
  unfold create_task. do 4 (apply responds_bind; intros ?).
  destruct (_ || _); [apply responds_ret|].
  apply responds_bind; intros _. apply responds_ret.
Qed.

Lemma responds_get_task (task_id : value) : responds (get_task task_id).
Proof.
  unfold get_task. apply responds_bind; intros result.
  destruct (negb _); apply responds_ret.
Qed.

Lemma responds_update_task (task_id body : value) : responds (update_task task_id body).
Proof.
  intros w w' env. unfold update_task, bind, try_except, on_table, ret.
  destruct (update_locals body w) as [[[parts values]|e] w1]; [|discriminate].
  destruct parts as [|part parts]; [intros [= <- _]; eauto|].
  destruct (update_item _ _ _ _ (table w1)) as [[result|e] t']; intros [= <- _]; eauto.
Qed.

Lemma responds_delete_task (task_id : value) : responds (delete_task task_id).
Proof.
  unfold delete_task. apply responds_bind; intros result.
  destruct (negb _); [apply responds_ret|].
  apply responds_bind; intros _. apply responds_ret.
Qed.

Lemma responds_get_tasks_by_date (query_params : value) :
  responds (get_tasks_by_date query_params).
Proof.
  unfold get_tasks_by_date. apply responds_bind; intros date.
  destruct (negb _); [apply responds_ret|].
  apply responds_bind; intros result. apply responds_ret.
Qed.

Lemma responds_with_task_id (path_params : value) (operation : value -> M T envelope) :
  (forall task_id : value, responds (operation task_id)) ->
  responds (with_task_id path_params operation).
Proof.
  intros Hop. unfold with_task_id. apply responds_bind; intros task_id.
  destruct (negb _); [apply responds_ret | apply Hop].
Qed.

Lemma responds_dispatch (uuid4 : nat -> string)
    (route_key path_params query_params body : value) :
  responds (dispatch uuid4 route_key path_params query_params body).
Proof.
  unfold dispatch.
  destruct (py_eq_str route_key "POST /tasks"); [apply responds_create_task|].
  destruct (py_eq_str route_key "GET /tasks/{id}");
    [apply responds_with_task_id, responds_get_task|].
  destruct (py_eq_str route_key "PUT /tasks/{id}");
    [apply responds_with_task_id; intros ?; apply responds_update_task|].
  destruct (py_eq_str route_key "DELETE /tasks/{id}");
    [apply responds_with_task_id, responds_delete_task|].
  destruct (py_eq_str route_key "GET /tasks"); [|apply responds_ret].
  apply responds_bind; intros [|]; [apply responds_get_tasks_by_date|].
  apply responds_bind; intros result. apply responds_ret.
Qed.

End Responds.

Lemma py_eq_str_true (v : value) (s : string) : py_eq_str v s = true <-> v = VStr s.
Proof.
  destruct v; simpl; try (split; [discriminate | intros [=]]).
  rewrite String.eqb_eq. split; [intros -> | intros [=]]; congruence.
Qed.

Lemma py_eq_str_false (v : value) (s : string) : v <> VStr s -> py_eq_str v s = false.
Proof.
  intros Hne. destruct (py_eq_str v s) eqn:E; [|reflexivity].
  apply py_eq_str_true in E. contradiction.
Qed.

(** C9: on any table and for any decoder, [lambda_handler] never raises: it
    returns an envelope with the JSON content type, the wildcard CORS header
    and a serialized body.  A route key that is none of the five routes is
    answered with 404 and the route-not-found message; a route with an [id]
    parameter whose [id] is missing or falsy is answered with 400; an
    exception raised anywhere in the dispatch, the operation included, is
    printed and answered with 500 and its message; and what the dispatch
    returns is returned as it is. *)
Theorem lambda_handler_returns_envelope {T : Type} `{Table T}
    (json_loads : string -> outcome value) (uuid4 : nat -> string)
    (event : dict) (w : world T) :
  let body := parsed_body json_loads event in
  let w1 := after_print w (received_line event) in
  let run := dispatch uuid4 (route_key_of event) (path_params_of event)
               (query_params_of event) body w1 in
  (exists (env : envelope) (w' : world T),
      lambda_handler json_loads uuid4 event w = (Return env, w') /\ well_formed env)
  /\ ((forall r : string, r ∈ routes -> route_key_of event <> VStr r) ->
      lambda_handler json_loads uuid4 event w
      = (Return (response 404 (message msg_route_not_found)), w1))
  /\ (forall (r : string) (params : dict),
        r ∈ id_routes ->
        route_key_of event = VStr r ->
        path_params_of event = VDict params ->
        truthy (dict_get params "id") = false ->
        lambda_handler json_loads uuid4 event w
        = (Return (response 400 (message msg_id_required)), w1))
  /\ (forall (e : exn) (w2 : world T),
        run = (Raise e, w2) ->
        lambda_handler json_loads uuid4 event w
        = (Return (response 500 (message ("Erro interno: " +:+ str_exn e))),
           after_print w2 ("Erro na Lambda: " +:+ str_exn e)))
  /\ (forall (env : envelope) (w2 : world T),
        run = (Return env, w2) ->
        lambda_handler json_loads uuid4 event w = (Return env, w2)).
Proof.
  intros body w1 run. rewrite lambda_handler_handle. unfold handle_with_body.
  fold body. fold w1. fold run.
  split; [|split; [|split; [|split]]].
  - destruct run as [[env|e] w2] eqn:Hrun.
    + exists env, w2. split; [reflexivity|].
      destruct (responds_dispatch _ _ _ _ _ _ _ _ Hrun) as (sc & v & ->).
      apply response_well_formed.
    + eexists _, _. split; [reflexivity | apply response_well_formed].
  - intros Hnone. subst run. unfold dispatch.
    rewrite !py_eq_str_false by (apply Hnone; unfold routes; set_solver).
    reflexivity.
  - intros r params Hr Hroute Hparams Hid. subst run. unfold dispatch.
    rewrite Hroute, Hparams.
    unfold id_routes in Hr.
    assert (Hcases : r = "GET /tasks/{id}" \/ r = "PUT /tasks/{id}"
                     \/ r = "DELETE /tasks/{id}")
      by (rewrite !elem_of_cons, elem_of_nil in Hr; tauto).
    destruct Hcases as [-> | [-> | ->]];
      cbn [py_eq_str String.eqb Ascii.eqb Bool.eqb];
      unfold with_task_id, bind, lift, py_get, ret; rewrite Hid; reflexivity.
  - intros e w2 ->. reflexivity.
  - intros env w2 ->. reflexivity.
Qed.

(** A key that is no string is refused by the store; the handler prints the
    exception and answers 500 with its message. *)
Lemma lambda_handler_catches_store_error :
  let event := [("routeKey", VStr "GET /tasks/{id}");
                ("pathParameters", VDict [("id", VInt 5)])] in
  let w := World (∅ : mem_table) 0%nat [] in
  lambda_handler sample_loads (fun n => pretty n) event w
  = (Return (response 500 (message ("Erro interno: " +:+ str_exn (schema_error "GetItem")))),
     World (∅ : mem_table) 0%nat
       [received_line event; "Erro na Lambda: " +:+ str_exn (schema_error "GetItem")]).
Proof.
  intros event w.
  refine (proj1 (proj2 (proj2 (proj2
    (lambda_handler_returns_envelope sample_loads (fun n => pretty n) event w))))
    (schema_error "GetItem") (after_print w (received_line event)) _).
  reflexivity.
Defined.

(** C8: on any table.  When the event carries a body text that the decoder
    rejects, the body the handler dispatches with is the empty dict, as for
    an event with no body: the handler does what it does with no field
    given.  A [PUT] with an id then answers 400 with the nothing-to-update
    message and a [POST] answers 400 with the required-fields message; the
    rejected text is by itself neither a 400 nor a 500. *)
Theorem malformed_body_is_no_fields {T : Type} `{Table T}
    (json_loads : string -> outcome value) (uuid4 : nat -> string)
    (event : dict) (s : string) (e : exn) (w : world T) :
  dict_get event "body" = VStr s ->
  json_loads s = Raise e ->
  let w1 := after_print w (received_line event) in
  parse_body json_loads event w = (Return (VDict []), w)
  /\ parsed_body json_loads (dict_remove event "body") = VDict []
  /\ lambda_handler json_loads uuid4 event w = handle_with_body uuid4 event (VDict []) w
  /\ (forall params : dict,
        route_key_of event = VStr "PUT /tasks/{id}" ->
        path_params_of event = VDict params ->
        truthy (dict_get params "id") = true ->
        lambda_handler json_loads uuid4 event w
        = (Return (response 400 (message msg_nothing_to_update)), w1))
  /\ (route_key_of event = VStr "POST /tasks" ->
      lambda_handler json_loads uuid4 event w
      = (Return (response 400 (message msg_required_fields)), after_uuid w1)).
Proof.
  intros Hbody Hloads w1.
  assert (Hparsed : parsed_body json_loads event = VDict []).
  { unfold parsed_body. rewrite Hbody. cbn [py_json_loads]. rewrite Hloads.
    destruct (truthy (VStr s)); reflexivity. }
  split; [rewrite parse_body_parsed, Hparsed; reflexivity|].
  split; [unfold parsed_body; rewrite dict_get_remove_eq; reflexivity|].
  split; [rewrite lambda_handler_handle, Hparsed; reflexivity|].
  split.
  - intros params Hroute Hparams Hid.
    at_route Hroute. rewrite Hparsed, Hparams.
    unfold with_task_id, bind at 1, lift, py_get. rewrite Hid. cbn [negb].
    rewrite update_task_dict. reflexivity.
  - intros Hroute.
    at_route Hroute. rewrite Hparsed, create_task_dict. reflexivity.
Qed.

(** A [PUT] whose body is the text of a broken object answers 400, nothing
    to update. *)
Lemma put_with_malformed_body :
  let event := [("routeKey", VStr "PUT /tasks/{id}");
                ("pathParameters", VDict [("id", VStr "t1")]);
                ("body", VStr "{title")] in
  let w := World (∅ : mem_table) 0%nat [] in
  lambda_handler sample_loads (fun n => pretty n) event w
  = (Return (response 400 (message msg_nothing_to_update)),
     after_print w (received_line event)).
Proof.
  intros event w.
  refine (proj1 (proj2 (proj2 (proj2
    (malformed_body_is_no_fields sample_loads (fun n => pretty n) event "{title"
       (Exn "JSONDecodeError" "Expecting value: line 1 column 1 (char 0)") w _ _))))
    [("id", VStr "t1")] _ _ _); reflexivity.
Defined.

(** ** Listing tasks, on the in-memory table *)

Lemma item_of_inj (k k' : string) (attrs attrs' : dict) :
  item_of k attrs = item_of k' attrs' -> k = k' /\ attrs = attrs'.
Proof. intros [= -> ->]. split; reflexivity. Qed.

Lemma elem_of_mem_items (t : mem_table) (item : value) :
  item ∈ mem_items t
  <-> exists (k : string) (attrs : dict), t !! k = Some attrs /\ item = item_of k attrs.
Proof.
  unfold mem_items. rewrite list_elem_of_fmap. split.
  - intros ([k attrs] & -> & Hin). apply elem_of_map_to_list in Hin. eauto.
  - intros (k & attrs & Hk & ->). exists (k, attrs). split; [reflexivity|].
    by apply elem_of_map_to_list.
Qed.

Lemma NoDup_mem_items (t : mem_table) : NoDup (mem_items t).
Proof.
  unfold mem_items. apply NoDup_fmap_2; [|apply NoDup_map_to_list].
  intros [k attrs] [k' attrs'] Heq. cbn [fst snd] in Heq.
  apply item_of_inj in Heq as [-> ->]. reflexivity.
Qed.

Lemma value_eqb_str (x : value) (s : string) : value_eqb x (VStr s) = true <-> x = VStr s.
Proof.
  destruct x; cbn [value_eqb]; try (split; [discriminate | intros [=]]).
  rewrite String.eqb_eq. split; [intros -> | intros [=]]; congruence.
Qed.

Lemma satisfies_date (s k : string) (attrs : dict) :
  satisfies (AttrEq "date" (VStr s)) (item_of k attrs) = true
  <-> dict_lookup attrs "date" = Some (VStr s).
Proof.
  unfold satisfies, item_of. cbn [dict_lookup String.eqb Ascii.eqb Bool.eqb].
  destruct (dict_lookup attrs "date") as [x|].
  - rewrite value_eqb_str. split; [intros -> | intros [=]]; congruence.
  - split; discriminate.
Qed.

Lemma list_all (json_loads : string -> outcome value) (uuid4 : nat -> string)
    (event params : dict) (w : world mem_table) :
  route_key_of event = VStr "GET /tasks" ->
  query_params_of event = VDict params ->
  dict_lookup params "date" = None ->
  lambda_handler json_loads uuid4 event w
  = (Return (response 200 (VList (mem_items (table w)))),
     after_print w (received_line event)).
Proof.
  intros Hroute Hparams Hdate. at_route Hroute. rewrite Hparams.
  unfold bind, lift, py_in, dict_mem. rewrite Hdate. reflexivity.
Qed.

Lemma list_by_date (json_loads : string -> outcome value) (uuid4 : nat -> string)
    (event params : dict) (date : value) (w : world mem_table) :
  route_key_of event = VStr "GET /tasks" ->
  query_params_of event = VDict params ->
  dict_lookup params "date" = Some date ->
  lambda_handler json_loads uuid4 event w
  = (Return (if truthy date
             then response 200
                    (VList (filter (fun item => satisfies (AttrEq "date" date) item = true)
                                   (mem_items (table w))))
             else response 400 (message msg_date_required)),
     after_print w (received_line event)).
Proof.
  intros Hroute Hparams Hdate. at_route Hroute. rewrite Hparams.
  unfold bind at 1, lift at 1, py_in, dict_mem. rewrite Hdate.
  unfold get_tasks_by_date, bind, lift, py_get, ret, dict_get.
  destruct params as [|p params]; [discriminate Hdate|]. cbn [truthy].
  rewrite Hdate. destruct (truthy date); reflexivity.
Qed.

(** C5: on the store, for an event on the route [GET /tasks] whose query
    parameters are the dict [params] (the empty one when the event has
    none).  With no [date] key the answer is 200 with every stored task, each
    once.  With a [date] that is a non-empty string the answer is 200 with
    exactly the stored tasks whose [date] attribute is that same string,
    possibly none.  With a [date] key whose value is empty (or falsy) the
    answer is 400.  The store is not changed. *)
Theorem list_tasks_by_date_or_all
    (json_loads : string -> outcome value) (uuid4 : nat -> string)
    (event params : dict) (w : world mem_table) :
  route_key_of event = VStr "GET /tasks" ->
  query_params_of event = VDict params ->
  let w1 := after_print w (received_line event) in
  let listed (date : value) : list value :=
    filter (fun item => satisfies (AttrEq "date" date) item = true) (mem_items (table w)) in
  match dict_lookup params "date" with
  | None =>
      lambda_handler json_loads uuid4 event w
      = (Return (response 200 (VList (mem_items (table w)))), w1)
  | Some date =>
      if truthy date
      then lambda_handler json_loads uuid4 event w
           = (Return (response 200 (VList (listed date))), w1)
      else lambda_handler json_loads uuid4 event w
           = (Return (response 400 (message msg_date_required)), w1)
  end
  /\ table w1 = table w
  /\ NoDup (mem_items (table w))
  /\ (forall item : value,
        item ∈ mem_items (table w)
        <-> exists (k : string) (attrs : dict),
              table w !! k = Some attrs /\ item = item_of k attrs)
  /\ (forall (s : string) (item : value),
        item ∈ listed (VStr s)
        <-> exists (k : string) (attrs : dict),
              table w !! k = Some attrs /\ item = item_of k attrs
              /\ dict_lookup attrs "date" = Some (VStr s))
  /\ (forall s : string, truthy (VStr s) = false <-> s = EmptyString).
Proof.
  intros Hroute Hparams w1 listed.
  split; [|split; [reflexivity|split; [apply NoDup_mem_items|split;
    [apply elem_of_mem_items|split]]]].
  - destruct (dict_lookup params "date") as [date|] eqn:Hdate.
    + rewrite (list_by_date _ _ _ _ _ _ Hroute Hparams Hdate).
      destruct (truthy date); reflexivity.
    + by apply list_all with params.
  - intros s item. unfold listed. rewrite list_elem_of_filter, elem_of_mem_items.
    split.
    + intros (Hsat & k & attrs & Hk & ->). apply satisfies_date in Hsat. eauto.
    + intros (k & attrs & Hk & -> & Hdate). split; [by apply satisfies_date | eauto].
  - intros s. destruct s; cbn [truthy]; split; intros E; congruence.
Qed.

(** [GET /tasks?date=2025-12-04] on a store of two tasks lists the one of
    that date. *)
Lemma list_one_of_two :
  let milk := [("title", VStr "Buy milk"); ("description", VStr "2L");
               ("date", VStr "2025-12-04")] in
  let rent := [("title", VStr "Pay rent"); ("description", VStr EmptyString);
               ("date", VStr "2025-12-05")] in
  let event := [("routeKey", VStr "GET /tasks");
                ("queryStringParameters", VDict [("date", VStr "2025-12-04")])] in
  let w := World (<["t1" := milk]> (<["t2" := rent]> ∅) : mem_table) 0%nat [] in
  lambda_handler sample_loads (fun n => pretty n) event w
  = (Return (response 200 (VList [item_of "t1" milk])),
     after_print w (received_line event)).
Proof.
  intros milk rent event w.
  refine (proj1 (list_tasks_by_date_or_all sample_loads (fun n => pretty n) event
                   [("date", VStr "2025-12-04")] w _ _)); reflexivity.
Defined.

(** ** Bodies that are no objects, and one run of the whole service *)

(** A body that decodes to a list has no [get]: [create_task] raises after
    the UUID was drawn, and the handler answers 500. *)
Example create_task_list_body (w : world mem_table) :
  create_task (fun n => pretty n) (VList []) w
  = (Raise (AttributeError "'list' object has no attribute 'get'"), after_uuid w).
Proof. reflexivity. Qed.

(** On a body that decodes to a string, [in] is the substring test: the
    block of [title] is entered and the subscript raises. *)
Example update_task_string_body (w : world mem_table) :
  update_task (VStr "t1") (VStr "my title") w
  = (Raise (TypeError "string indices must be integers, not 'str'"), w).
Proof. reflexivity. Qed.

(** A key that is there with the empty string is applied by [update_task]. *)
Example update_task_empty_title :
  let stored := [("title", VStr "Buy milk"); ("description", VStr "2L");
                 ("date", VStr "2025-12-04")] in
  let w := World ({["t1" := stored]} : mem_table) 0%nat [] in
  update_task (VStr "t1") (VDict [("title", VStr EmptyString)]) w
  = (Return (response 200 (item_of "t1" [("title", VStr EmptyString);
                                         ("description", VStr "2L");
                                         ("date", VStr "2025-12-04")])),
     with_table w ({["t1" := [("title", VStr EmptyString); ("description", VStr "2L");
                              ("date", VStr "2025-12-04")]]} : mem_table)).
Proof. vm_compute. reflexivity. Qed.

(** The scenario of section 8 of the specification, on an empty store:
    create, read, update the description, list by date, delete, read. *)
Example end_to_end_scenario :
  let uuid4 := fun n : nat => pretty n in
  let w0 := World (∅ : mem_table) 0%nat [] in
  let created := [("id", VStr "0"); ("title", VStr "Buy milk");
                  ("description", VStr EmptyString); ("date", VStr "2025-12-04")] in
  let updated := [("id", VStr "0"); ("title", VStr "Buy milk");
                  ("description", VStr "2L"); ("date", VStr "2025-12-04")] in
  let run : M mem_table (list envelope) :=
    do r1 <- create_task uuid4 (VDict [("title", VStr "Buy milk");
                                       ("date", VStr "2025-12-04")]);
    do r2 <- get_task (VStr "0");
    do r3 <- update_task (VStr "0") (VDict [("description", VStr "2L")]);
    do r4 <- get_tasks_by_date (VDict [("date", VStr "2025-12-04")]);
    do r5 <- delete_task (VStr "0");
    do r6 <- get_task (VStr "0");
    ret [r1; r2; r3; r4; r5; r6] in
  run w0
  = (Return [response 201 (VDict created);
             response 200 (VDict created);
             response 200 (VDict updated);
             response 200 (VList [VDict updated]);
             response 204 (VDict []);
             response 404 (message msg_task_not_found)],
     World (∅ : mem_table) 1%nat []).
Proof. vm_compute. reflexivity. Qed.

(** * Further properties of the handler *)

(** ** Bodies that are no objects *)

(** X1: [update_task] on a body that is not a dict never reaches the table.
    The world is left as it was; the answer is 400, nothing to update, exactly
    when none of the three field names is [in] the body (an element of the
    list, a substring of the string), and otherwise a [TypeError] is raised:
    by the subscript for a list or a string, by [in] itself for [None], a
    boolean or a number. *)
Theorem update_task_non_object {T : Type} `{Table T} (task_id body : value) (w : world T) :
  (forall d : dict, body <> VDict d) ->
  snd (update_task task_id body w) = w
  /\ match fst (update_task task_id body w) with
     | Return env => env = response 400 (message msg_nothing_to_update)
     | Raise e => exn_class e = "TypeError"
     end
  /\ (fst (update_task task_id body w)
       = Return (response 400 (message msg_nothing_to_update))
     <-> py_in "title" body = Return false
         /\ py_in "description" body = Return false
         /\ py_in "date" body = Return false)
  /\ (type_name body ∈ ["NoneType"; "bool"; "int"] ->
      fst (update_task task_id body w)
      = Raise (TypeError ("argument of type '" +:+ type_name body +:+ "' is not iterable"))).
Proof.
  intros Hbody.
  unfold update_task, update_locals, update_field, bind, lift, ret, py_in, py_getitem.
  destruct body as [| b | n | s | l | d]; [| | | | | by destruct (Hbody d)].
  - cbn. repeat split; try discriminate. by intros (E & _).
  - cbn. repeat split; try discriminate. by intros (E & _).
  - cbn. repeat split; try discriminate. by intros (E & _).
  - destruct (substring_of "title" s), (substring_of "description" s),
      (substring_of "date" s); cbn;
      repeat split; try discriminate; try reflexivity;
      try (intros (E1 & E2 & E3); discriminate);
      intros Hin; rewrite !elem_of_cons, elem_of_nil in Hin;
      destruct Hin as [E|[E|[E|[]]]]; discriminate E.
  - destruct (existsb (fun x => py_eq_str x "title") l),
      (existsb (fun x => py_eq_str x "description") l),
      (existsb (fun x => py_eq_str x "date") l); cbn;
      repeat split; try discriminate; try reflexivity;
      try (intros (E1 & E2 & E3); discriminate);
      intros Hin; rewrite !elem_of_cons, elem_of_nil in Hin;
      destruct Hin as [E|[E|[E|[]]]]; discriminate E.
Qed.

(** A body that is the number 5: [in] raises, the table is not called. *)
Lemma update_task_number_body :
  let w := World (∅ : mem_table) 0%nat [] in
  update_task (VStr "t1") (VInt 5) w
  = (Raise (TypeError "argument of type 'int' is not iterable"), w).
Proof.
  intros w.
  pose proof (update_task_non_object (VStr "t1") (VInt 5) w) as Hupdate.
  destruct Hupdate as (Hworld & _ & _ & Hraise); [discriminate|].
  rewrite (surjective_pairing (update_task (VStr "t1") (VInt 5) w)).
  rewrite Hworld, Hraise; [reflexivity|]. right. right. left.
Defined.

Lemma create_task_non_object {T : Type} `{Table T} (uuid4 : nat -> string)
    (body : value) (w : world T) :
  (forall d : dict, body <> VDict d) ->
  create_task uuid4 body w
  = (Raise (AttributeError ("'" +:+ type_name body +:+ "' object has no attribute 'get'")),
     after_uuid w).
Proof.
  intros Hbody. destruct body as [| b | n | s | l | d]; try reflexivity.
  by destruct (Hbody d).
Qed.

(** X2: a [POST] whose body decodes to a value that is not a dict.
    [create_task] draws its UUID, then raises the [AttributeError] of the
    first [body.get] without calling the table; the handler prints the
    exception and answers 500 with its message. *)
Theorem post_without_object {T : Type} `{Table T}
    (json_loads : string -> outcome value) (uuid4 : nat -> string)
    (event : dict) (body : value) (w : world T) :
  route_key_of event = VStr "POST /tasks" ->
  parsed_body json_loads event = body ->
  (forall d : dict, body <> VDict d) ->
  let e := AttributeError ("'" +:+ type_name body +:+ "' object has no attribute 'get'") in
  let w1 := after_print w (received_line event) in
  create_task uuid4 body w1 = (Raise e, after_uuid w1)
  /\ lambda_handler json_loads uuid4 event w
     = (Return (response 500 (message ("Erro interno: " +:+ str_exn e))),
        after_print (after_uuid w1) ("Erro na Lambda: " +:+ str_exn e)).
Proof.
  intros Hroute Hparsed Hbody e w1.
  split; [by apply create_task_non_object|].
  at_route Hroute. rewrite Hparsed, create_task_non_object by exact Hbody.
  reflexivity.
Qed.

(** A [POST] with a JSON list as its body. *)
Lemma post_with_list_body :
  let event := [("routeKey", VStr "POST /tasks"); ("body", VStr "[]")] in
  let w := World (∅ : mem_table) 0%nat [] in
  lambda_handler list_loads (fun n => pretty n) event w
  = (Return (response 500
               (message "Erro interno: 'list' object has no attribute 'get'")),
     World (∅ : mem_table) 1%nat
       [received_line event; "Erro na Lambda: 'list' object has no attribute 'get'"]).
Proof.
  intros event w.
  refine (proj2 (post_without_object list_loads (fun n => pretty n) event (VList []) w
                   _ _ _)).
  - reflexivity.
  - reflexivity.
  - discriminate.
Defined.

(** ** Keys of the body that the operations do not read *)

Lemma supplied_ext (d d' : dict) :
  (forall f : string, f ∈ updatable -> dict_lookup d f = dict_lookup d' f) ->
  supplied d = supplied d' /\ expression_of d = expression_of d'
  /\ values_of d = values_of d'.
Proof.
  intros Hsame.
  assert (Ht : dict_lookup d "title" = dict_lookup d' "title")
    by (apply Hsame; unfold updatable; left).
  assert (Hd : dict_lookup d "description" = dict_lookup d' "description")
    by (apply Hsame; unfold updatable; right; left).
  assert (Hdt : dict_lookup d "date" = dict_lookup d' "date")
    by (apply Hsame; unfold updatable; right; right; left).
  assert (Hs : supplied d = supplied d')
    by (unfold supplied, updatable, dict_mem; cbn [List.filter]; by rewrite Ht, Hd, Hdt).
  split; [exact Hs|]. unfold expression_of, values_of. rewrite Hs. split; [reflexivity|].
  apply map_ext_in. intros f Hf. f_equal. unfold dict_get.
  rewrite Hsame; [reflexivity|].
  apply list_elem_of_In in Hf. rewrite <- Hs in Hf.
  by apply supplied_spec in Hf as [? _].
Qed.

(** X3: [update_task] reads nothing of the body but [title], [description]
    and [date]: two dicts that agree on these three keys get the same answer
    and the same effects on any table.  An [id] in the body, or any other
    key, changes nothing. *)
Theorem update_task_ignores_other_keys {T : Type} `{Table T}
    (task_id : value) (d d' : dict) (w : world T) :
  (forall f : string, f ∈ updatable -> dict_lookup d f = dict_lookup d' f) ->
  update_task task_id (VDict d) w = update_task task_id (VDict d') w.
Proof.
  intros Hsame. destruct (supplied_ext d d' Hsame) as (Hs & He & Hv).
  rewrite !update_task_dict, Hs, He, Hv. reflexivity.
Qed.

(** An [id] in the body of an update is not read. *)
Lemma update_task_ignores_id :
  let stored := [("title", VStr "Buy milk"); ("description", VStr "2L");
                 ("date", VStr "2025-12-04")] in
  let w := World ({["t1" := stored]} : mem_table) 0%nat [] in
  update_task (VStr "t1") (VDict [("id", VStr "t2"); ("title", VStr "X")]) w
  = update_task (VStr "t1") (VDict [("title", VStr "X")]) w.
Proof.
  intros stored w. apply update_task_ignores_other_keys.
  intros f Hf. unfold updatable in Hf. rewrite !elem_of_cons, elem_of_nil in Hf.
  destruct Hf as [-> | [-> | [-> | []]]]; reflexivity.
Defined.

(** X4: [create_task] reads nothing of the body but [title], [description]
    and [date]: two dicts that agree on these three keys get the same answer
    and the same effects on any table.  The id of the record is the UUID
    drawn, whatever [id] the body carries. *)
Theorem create_task_ignores_other_keys {T : Type} `{Table T}
    (uuid4 : nat -> string) (d d' : dict) (w : world T) :
  (forall f : string, f ∈ updatable -> dict_lookup d f = dict_lookup d' f) ->
  create_task uuid4 (VDict d) w = create_task uuid4 (VDict d') w.
Proof.
  intros Hsame.
  assert (Ht : dict_lookup d "title" = dict_lookup d' "title")
    by (apply Hsame; unfold updatable; left).
  assert (Hd : dict_lookup d "description" = dict_lookup d' "description")
    by (apply Hsame; unfold updatable; right; left).
  assert (Hdt : dict_lookup d "date" = dict_lookup d' "date")
    by (apply Hsame; unfold updatable; right; right; left).
  rewrite !create_task_dict.
  unfold created_record, created_attrs, description_of, dict_get.
  rewrite Ht, Hd, Hdt. reflexivity.
Qed.

(** An [id] in the body of a create is not read: the record gets the UUID. *)
Lemma create_task_ignores_id :
  let w := World (∅ : mem_table) 0%nat [] in
  create_task (fun n => pretty n)
    (VDict [("id", VStr "mine"); ("title", VStr "Buy milk"); ("date", VStr "2025-12-04")]) w
  = create_task (fun n => pretty n)
      (VDict [("title", VStr "Buy milk"); ("date", VStr "2025-12-04")]) w.
Proof.
  intros w. apply create_task_ignores_other_keys.
  intros f Hf. unfold updatable in Hf. rewrite !elem_of_cons, elem_of_nil in Hf.
  destruct Hf as [-> | [-> | [-> | []]]]; reflexivity.
Defined.

(** ** The status codes of each route *)

(** Membership in, and inclusion between, lists written out. *)
Ltac list_mem := solve [repeat constructor].
Ltac list_sub :=
  let x := fresh "x" in
  let Hx := fresh "Hx" in
  intros x Hx; rewrite !elem_of_cons, elem_of_nil in Hx;
  rewrite !elem_of_cons, elem_of_nil; tauto.

Section Answers.

Context {T : Type} `{Table T}.

Lemma answers_ret (codes : list Z) (status_code : Z) (v : value) :
  status_code ∈ codes -> answers (T := T) codes (ret (response status_code v)).
Proof. intros Hin w w' env [= <- _]. exact Hin. Qed.

Lemma answers_bind {A : Type} (codes : list Z) (m : M T A) (k : A -> M T envelope) :
  (forall a : A, answers codes (k a)) -> answers codes (bind m k).
Proof.
  intros Hk w w' env. unfold bind.
  destruct (m w) as [[a|e] w1]; [apply Hk | discriminate].
Qed.

Lemma answers_mono (codes codes' : list Z) (m : M T envelope) :
  codes ⊆ codes' -> answers codes m -> answers codes' m.
Proof. intros Hsub Hm w w' env Hrun. apply Hsub. by apply (Hm w w'). Qed.

Lemma answers_create_task (uuid4 : nat -> string) (body : value) :
  answers [201; 400] (create_task uuid4 body).
Proof.
  unfold create_task. do 4 (apply answers_bind; intros ?).
  destruct (_ || _); [apply answers_ret; list_mem|].
  apply answers_bind; intros _. apply answers_ret. list_mem.
Qed.

Lemma answers_get_task (task_id : value) : answers [200; 404] (get_task task_id).
Proof.
  unfold get_task. apply answers_bind; intros result.
  destruct (negb _); apply answers_ret; list_mem.
Qed.

Lemma answers_update_task (task_id body : value) :
  answers [200; 400; 500] (update_task task_id body).
Proof.
  intros w w' env. unfold update_task, bind, try_except, on_table, ret.
  destruct (update_locals body w) as [[[parts values]|e] w1]; [|discriminate].
  destruct parts as [|part parts]; [intros [= <- _]; list_mem|].
  destruct (update_item _ _ _ _ (table w1)) as [[result|e] t']; intros [= <- _];
    list_mem.
Qed.

Lemma answers_delete_task (task_id : value) : answers [204; 404] (delete_task task_id).
Proof.
  unfold delete_task. apply answers_bind; intros result.
  destruct (negb _); [apply answers_ret; list_mem|].
  apply answers_bind; intros _. apply answers_ret. list_mem.
Qed.

Lemma answers_get_tasks_by_date (query_params : value) :
  answers [200; 400] (get_tasks_by_date query_params).
Proof.
  unfold get_tasks_by_date. apply answers_bind; intros date.
  destruct (negb _); [apply answers_ret; list_mem|].
  apply answers_bind; intros result. apply answers_ret. list_mem.
Qed.

Lemma answers_with_task_id (codes : list Z) (path_params : value)
    (operation : value -> M T envelope) :
  400 ∈ codes ->
  (forall task_id : value, answers codes (operation task_id)) ->
  answers codes (with_task_id path_params operation).
Proof.
  intros H400 Hop. unfold with_task_id. apply answers_bind; intros task_id.
  destruct (negb _); [by apply answers_ret | apply Hop].
Qed.

Lemma answers_dispatch (uuid4 : nat -> string)
    (route_key path_params query_params body : value) :
  answers (allowed_statuses route_key)
          (dispatch uuid4 route_key path_params query_params body).
Proof.
  unfold dispatch, allowed_statuses.
  destruct (py_eq_str route_key "POST /tasks").
  { eapply answers_mono; [|apply answers_create_task]. list_sub. }
  destruct (py_eq_str route_key "GET /tasks/{id}").
  { apply answers_with_task_id; [list_mem|]. intros task_id.
    eapply answers_mono; [|apply answers_get_task]. list_sub. }
  destruct (py_eq_str route_key "PUT /tasks/{id}").
  { apply answers_with_task_id; [list_mem|]. intros task_id.
    apply answers_update_task. }
  destruct (py_eq_str route_key "DELETE /tasks/{id}").
  { apply answers_with_task_id; [list_mem|]. intros task_id.
    eapply answers_mono; [|apply answers_delete_task]. list_sub. }
  destruct (py_eq_str route_key "GET /tasks"); [|apply answers_ret; list_mem].
  apply answers_bind; intros [|].
  - eapply answers_mono; [|apply answers_get_tasks_by_date]. list_sub.
  - apply answers_bind; intros result. apply answers_ret. list_mem.
Qed.

Lemma allowed_statuses_500 (route_key : value) :
  500 ∈ allowed_statuses route_key
  \/ (forall r : string, r ∈ routes -> py_eq_str route_key r = false).
Proof.
  unfold allowed_statuses, routes.
  destruct (py_eq_str route_key "POST /tasks") eqn:E1; [left; list_mem|].
  destruct (py_eq_str route_key "GET /tasks/{id}") eqn:E2; [left; list_mem|].
  destruct (py_eq_str route_key "PUT /tasks/{id}") eqn:E3; [left; list_mem|].
  destruct (py_eq_str route_key "DELETE /tasks/{id}") eqn:E4; [left; list_mem|].
  destruct (py_eq_str route_key "GET /tasks") eqn:E5; [left; list_mem|].
  right. intros r Hr. rewrite !elem_of_cons, elem_of_nil in Hr.
  destruct Hr as [-> | [-> | [-> | [-> | [-> | []]]]]]; assumption.
Qed.

End Answers.

(** X5: on any table, for any decoder and event, the status of the envelope
    [lambda_handler] returns is one the route allows: 201, 400 or 500 for
    [POST /tasks]; 200, 404, 400 or 500 for [GET /tasks/{id}]; 200, 400 or
    500 for [PUT /tasks/{id}]; 204, 404, 400 or 500 for [DELETE /tasks/{id}];
    200, 400 or 500 for [GET /tasks]; and only 404 for any other route key.
    So [PUT] never answers 404, and an unknown route never answers 500. *)
Theorem lambda_handler_statuses {T : Type} `{Table T}
    (json_loads : string -> outcome value) (uuid4 : nat -> string)
    (event : dict) (w : world T) :
  exists (env : envelope) (w' : world T),
    lambda_handler json_loads uuid4 event w = (Return env, w')
    /\ statusCode env ∈ allowed_statuses (route_key_of event).
Proof.
  rewrite lambda_handler_handle. unfold handle_with_body.
  destruct (dispatch _ _ _ _ _ _) as [[env|e] w'] eqn:Hrun.
  - exists env, w'. split; [reflexivity|]. by apply answers_dispatch in Hrun.
  - eexists _, _. split; [reflexivity|]. cbn [statusCode response].
    destruct (allowed_statuses_500 (route_key_of event)) as [H500|Hnone];
      [exact H500|].
    unfold dispatch in Hrun. unfold routes in Hnone.
    rewrite !Hnone in Hrun by list_mem. discriminate Hrun.
Qed.

(** ** What the handler prints and draws *)

Section Silent.

Context {T : Type} `{Table T}.

Lemma silent_ret {A : Type} (a : A) : silent (T := T) (ret a).
Proof. intros w w' o [= _ <-]. split; reflexivity. Qed.

Lemma silent_lift {A : Type} (o : outcome A) : silent (T := T) (lift o).
Proof. intros w w' o' [= _ <-]. split; reflexivity. Qed.

Lemma silent_on_table {A : Type} (f : T -> outcome A * T) : silent (on_table f).
Proof.
  intros w w' o. unfold on_table. destruct (f (table w)) as [o1 t'].
  intros [= _ <-]. split; reflexivity.
Qed.

Lemma silent_bind {A B : Type} (m : M T A) (k : A -> M T B) :
  silent m -> (forall a : A, silent (k a)) -> silent (bind m k).
Proof.
  intros Hm Hk w w' o. unfold bind.
  destruct (m w) as [[a|e] w1] eqn:Hrun; apply Hm in Hrun as [Hout Hid].
  - intros Hrun'. apply Hk in Hrun' as [Hout' Hid']. split; congruence.
  - intros [= _ <-]. split; assumption.
Qed.

Lemma silent_try_except {A : Type} (m : M T A) (h : exn -> M T A) :
  silent m -> (forall e : exn, silent (h e)) -> silent (try_except m h).
Proof.
  intros Hm Hh w w' o. unfold try_except.
  destruct (m w) as [[a|e] w1] eqn:Hrun; apply Hm in Hrun as [Hout Hid].
  - intros [= _ <-]. split; assumption.
  - intros Hrun'. apply Hh in Hrun' as [Hout' Hid']. split; congruence.
Qed.

Lemma silent_get_task (task_id : value) : silent (get_task task_id).
Proof.
  unfold get_task. apply silent_bind; [apply silent_on_table|]. intros result.
  destruct (negb _); apply silent_ret.
Qed.

Lemma silent_update_field (body : value) (name assignment placeholder : string)
    (locals : list string * dict) :
  silent (update_field (T := T) body name assignment placeholder locals).
Proof.
  unfold update_field. destruct locals as [parts values].
  apply silent_bind; [apply silent_lift|]. intros [|]; [|apply silent_ret].
  apply silent_bind; [apply silent_lift|]. intros v. apply silent_ret.
Qed.

Lemma silent_update_task (task_id body : value) : silent (update_task task_id body).
Proof.
  unfold update_task, update_locals.
  apply silent_bind.
  { repeat (apply silent_bind; [apply silent_update_field|]; intros ?).
    apply silent_update_field. }
  intros [parts values]. destruct parts as [|part parts]; [apply silent_ret|].
  apply silent_bind.
  - apply silent_try_except; [|intros e; apply silent_ret].
    apply silent_bind; [apply silent_on_table|]. intros result. apply silent_ret.
  - intros [result|failed]; apply silent_ret.
Qed.

Lemma silent_delete_task (task_id : value) : silent (delete_task task_id).
Proof.
  unfold delete_task. apply silent_bind; [apply silent_on_table|]. intros result.
  destruct (negb _); [apply silent_ret|].
  apply silent_bind; [apply silent_on_table|]. intros _. apply silent_ret.
Qed.

Lemma silent_get_tasks_by_date (query_params : value) :
  silent (get_tasks_by_date query_params).
Proof.
  unfold get_tasks_by_date. apply silent_bind.
  { destruct (truthy query_params); [apply silent_lift | apply silent_ret]. }
  intros date. destruct (negb _); [apply silent_ret|].
  apply silent_bind; [apply silent_on_table|]. intros result. apply silent_ret.
Qed.

Lemma silent_with_task_id (path_params : value) (operation : value -> M T envelope) :
  (forall task_id : value, silent (operation task_id)) ->
  silent (with_task_id path_params operation).
Proof.
  intros Hop. unfold with_task_id. apply silent_bind; [apply silent_lift|].
  intros task_id. destruct (negb _); [apply silent_ret | apply Hop].
Qed.

(** [create_task] draws one UUID, whatever the body and however it ends. *)
Lemma create_task_draws_one (uuid4 : nat -> string) (body : value)
    (w w' : world T) (o : outcome envelope) :
  create_task uuid4 body w = (o, w') ->
  stdout w' = stdout w /\ uuid_calls w' = S (uuid_calls w).
Proof.
  unfold create_task. unfold bind at 1, uuid4_str at 1.
  intros Hrun.
  match type of Hrun with
  | ?k _ = _ => assert (Hk : silent k)
  end.
  { repeat (apply silent_bind; [apply silent_lift|]; intros ?).
    destruct (_ || _); [apply silent_ret|].
    apply silent_bind; [apply silent_on_table|]. intros _. apply silent_ret. }
  apply Hk in Hrun as [Hout Hid]. split; [exact Hout | exact Hid].
Qed.

Lemma dispatch_effects (uuid4 : nat -> string)
    (route_key path_params query_params body : value)
    (w w' : world T) (o : outcome envelope) :
  dispatch uuid4 route_key path_params query_params body w = (o, w') ->
  stdout w' = stdout w
  /\ uuid_calls w'
     = if py_eq_str route_key "POST /tasks" then S (uuid_calls w) else uuid_calls w.
Proof.
  unfold dispatch.
  destruct (py_eq_str route_key "POST /tasks"); [apply create_task_draws_one|].
  destruct (py_eq_str route_key "GET /tasks/{id}");
    [apply silent_with_task_id, silent_get_task|].
  destruct (py_eq_str route_key "PUT /tasks/{id}");
    [apply silent_with_task_id; intros ?; apply silent_update_task|].
  destruct (py_eq_str route_key "DELETE /tasks/{id}");
    [apply silent_with_task_id, silent_delete_task|].
  destruct (py_eq_str route_key "GET /tasks"); [|apply silent_ret].
  apply silent_bind; [apply silent_lift|]. intros [|];
    [apply silent_get_tasks_by_date|].
  apply silent_bind; [apply silent_on_table|]. intros result. apply silent_ret.
Qed.

End Silent.

(** X6: on any table, for any decoder and event.  [lambda_handler] prints
    the line of the received event and nothing more, except when the
    catch-all answers: then it prints one more line, the exception, and the
    answer is the 500 with that exception's message.  A UUID is drawn on the
    route [POST /tasks], exactly one, also when the request is rejected or
    fails, and none on any other route. *)
Theorem lambda_handler_prints_and_draws {T : Type} `{Table T}
    (json_loads : string -> outcome value) (uuid4 : nat -> string)
    (event : dict) (w : world T) :
  let result := lambda_handler json_loads uuid4 event w in
  uuid_calls (snd result)
  = (if py_eq_str (route_key_of event) "POST /tasks"
     then S (uuid_calls w) else uuid_calls w)
  /\ (stdout (snd result) = (stdout w ++ [received_line event])%list
      \/ exists e : exn,
           stdout (snd result)
           = (stdout w ++ [received_line event; "Erro na Lambda: " +:+ str_exn e])%list
           /\ fst result
              = Return (response 500 (message ("Erro interno: " +:+ str_exn e)))).
Proof.
  intros result. subst result. rewrite lambda_handler_handle. unfold handle_with_body.
  destruct (dispatch _ _ _ _ _ _) as [[env|e] w'] eqn:Hrun;
    apply dispatch_effects in Hrun as [Hout Hid]; cbn [fst snd].
  - split; [exact Hid|]. left. rewrite Hout. reflexivity.
  - split; [exact Hid|]. right. exists e. split; [|reflexivity].
    cbn [after_print stdout]. rewrite Hout. cbn [after_print stdout].
    rewrite <- app_assoc. reflexivity.
Qed.

(** ** The store, one request at a time *)

Lemma mem_get_item_same (Key : dict) (t : mem_table) : snd (mem_get_item Key t) = t.
Proof.
  unfold mem_get_item. destruct (key_of "GetItem" Key); [|reflexivity].
  destruct (t !! a); reflexivity.
Qed.

Lemma update_task_non_dict_world {T : Type} `{Table T} (task_id body : value)
    (w : world T) :
  (forall d : dict, body <> VDict d) -> snd (update_task task_id body w) = w.
Proof.
  intros Hbody.
  unfold update_task, update_locals, update_field, bind, lift, ret, py_in, py_getitem.
  destruct body as [| b | n | s | l | d]; [| | | | | by destruct (Hbody d)];
    try reflexivity.
  - destruct (substring_of "title" s), (substring_of "description" s),
      (substring_of "date" s); reflexivity.
  - destruct (existsb (fun x => py_eq_str x "title") l),
      (existsb (fun x => py_eq_str x "description") l),
      (existsb (fun x => py_eq_str x "date") l); reflexivity.
Qed.

Section Steps.

Variable uuid4 : nat -> string.
Variable fresh : string.

Lemma create_task_step (body : value) (w : world mem_table) :
  fresh = uuid4 (uuid_calls w) ->
  store_step (VStr "POST /tasks") fresh (table w)
    (fst (create_task uuid4 body w)) (table (snd (create_task uuid4 body w))).
Proof.
  intros ->. destruct body as [| b | n | s | l | d];
    try (rewrite create_task_non_object by discriminate; apply step_none).
  rewrite create_task_dict.
  destruct (truthy (dict_get d "title") && truthy (dict_get d "date")) eqn:Hvalid;
    [|apply step_none].
  cbn [fst snd table with_table]. by apply step_insert.
Qed.

Lemma get_task_step (route_key task_id : value) (w : world mem_table) :
  store_step route_key fresh (table w)
    (fst (get_task task_id w)) (table (snd (get_task task_id w))).
Proof.
  assert (Hsame : table (snd (get_task task_id w)) = table w).
  { unfold get_task, bind, on_table. cbn [get_item MemTable].
    pose proof (mem_get_item_same [("id", task_id)] (table w)) as Hget.
    destruct (mem_get_item [("id", task_id)] (table w)) as [[result|e] t'];
      cbn [snd] in Hget; subst t'; [|reflexivity].
    destruct (negb _); reflexivity. }
  rewrite Hsame. apply step_none.
Qed.

Lemma update_task_step (task_id body : value) (w : world mem_table) :
  store_step (VStr "PUT /tasks/{id}") fresh (table w)
    (fst (update_task task_id body w)) (table (snd (update_task task_id body w))).
Proof.
  destruct body as [| b | n | s | l | d];
    try (rewrite update_task_non_dict_world by discriminate; apply step_none).
  rewrite update_task_dict.
  destruct (supplied d) as [|f fs] eqn:Hs; [apply step_none|].
  assert (Hsome : supplied d <> []) by (rewrite Hs; discriminate).
  destruct task_id as [| b | n | k | l | d'];
    try (cbn [update_item MemTable mem_update_item key_of fst snd with_table table];
         apply step_none).
  change (update_item [("id", VStr k)] (expression_of d) (values_of d) "ALL_NEW" (table w))
    with (mem_update_item [("id", VStr k)] (expression_of d) (values_of d) "ALL_NEW"
            (table w)).
  rewrite mem_update_item_supplied by exact Hsome.
  destruct (table w !! k) as [attrs|] eqn:Hk; cbn [fst snd with_table table];
    [|apply step_none].
  by apply step_update.
Qed.

Lemma delete_task_step (task_id : value) (w : world mem_table) :
  store_step (VStr "DELETE /tasks/{id}") fresh (table w)
    (fst (delete_task task_id w)) (table (snd (delete_task task_id w))).
Proof.
  destruct task_id as [| b | n | k | l | d']; try apply step_none.
  destruct (table w !! k) as [attrs|] eqn:Hk.
  - rewrite (delete_task_present k attrs w Hk). cbn [fst snd with_table table].
    by apply step_remove with attrs.
  - rewrite (delete_task_absent k w Hk). apply step_none.
Qed.

Lemma get_tasks_by_date_step (route_key query_params : value) (w : world mem_table) :
  store_step route_key fresh (table w)
    (fst (get_tasks_by_date query_params w))
    (table (snd (get_tasks_by_date query_params w))).
Proof.
  assert (Hsame : table (snd (get_tasks_by_date query_params w)) = table w).
  { unfold get_tasks_by_date, bind, on_table, lift, ret.
    destruct (truthy query_params); [destruct (py_get query_params "date")|];
      cbn [fst snd]; try reflexivity;
      match goal with |- context [negb (truthy ?v)] => destruct (truthy v) end;
      reflexivity. }
  rewrite Hsame. apply step_none.
Qed.

Lemma with_task_id_step (route_key path_params : value)
    (operation : value -> M mem_table envelope) (w : world mem_table) :
  (forall task_id : value,
      store_step route_key fresh (table w)
        (fst (operation task_id w)) (table (snd (operation task_id w)))) ->
  store_step route_key fresh (table w)
    (fst (with_task_id path_params operation w))
    (table (snd (with_task_id path_params operation w))).
Proof.
  intros Hop. unfold with_task_id, bind, lift.
  destruct (py_get path_params "id") as [task_id|e]; [|apply step_none].
  destruct (negb (truthy task_id)); [apply step_none | apply Hop].
Qed.

Lemma dispatch_step (route_key path_params query_params body : value)
    (w : world mem_table) :
  fresh = uuid4 (uuid_calls w) ->
  store_step route_key fresh (table w)
    (fst (dispatch uuid4 route_key path_params query_params body w))
    (table (snd (dispatch uuid4 route_key path_params query_params body w))).
Proof.
  intros Hfresh. unfold dispatch.
  destruct (py_eq_str route_key "POST /tasks") eqn:E1.
  { apply py_eq_str_true in E1 as ->. by apply create_task_step. }
  destruct (py_eq_str route_key "GET /tasks/{id}");
    [apply with_task_id_step; intros; apply get_task_step|].
  destruct (py_eq_str route_key "PUT /tasks/{id}") eqn:E3.
  { apply py_eq_str_true in E3 as ->.
    apply with_task_id_step; intros; apply update_task_step. }
  destruct (py_eq_str route_key "DELETE /tasks/{id}") eqn:E4.
  { apply py_eq_str_true in E4 as ->.
    apply with_task_id_step; intros; apply delete_task_step. }
  destruct (py_eq_str route_key "GET /tasks"); [|apply step_none].
  unfold bind, lift. destruct (py_in "date" query_params) as [[|]|e];
    [apply get_tasks_by_date_step | apply step_none | apply step_none].
Qed.

End Steps.

Lemma store_step_raise (route_key : value) (fresh : string) (t t' : mem_table) (e : exn) :
  store_step route_key fresh t (Raise e) t' -> t' = t.
Proof. inversion 1; reflexivity. Qed.

Lemma lambda_handler_step (json_loads : string -> outcome value) (uuid4 : nat -> string)
    (event : dict) (w : world mem_table) :
  store_step (route_key_of event) (uuid4 (uuid_calls w)) (table w)
    (fst (lambda_handler json_loads uuid4 event w))
    (table (snd (lambda_handler json_loads uuid4 event w))).
Proof.
  rewrite lambda_handler_handle. unfold handle_with_body.
  pose proof (dispatch_step uuid4 (uuid4 (uuid_calls w)) (route_key_of event)
                (path_params_of event) (query_params_of event)
                (parsed_body json_loads event) (after_print w (received_line event))
                eq_refl) as Hstep.
  destruct (dispatch _ _ _ _ _ _) as [[env|e] w']; cbn [fst snd] in *.
  - exact Hstep.
  - apply store_step_raise in Hstep. cbn [after_print table] in *. rewrite Hstep.
    apply step_none.
Qed.

(** X7: on the store, for any decoder and event, one call of
    [lambda_handler] does to the store one of four things.  It leaves it as
    it was; or, on [POST /tasks], it answers 201 and puts the created record
    under the UUID drawn; or, on [PUT /tasks/{id}], it answers 200 and assigns
    the supplied fields of a record that was stored; or, on
    [DELETE /tasks/{id}], it answers 204 and removes a record that was
    stored.  So the two [GET] routes never change the store, and neither does
    any request answered with 400, 404 or 500. *)
Theorem lambda_handler_store_step
    (json_loads : string -> outcome value) (uuid4 : nat -> string)
    (event : dict) (w : world mem_table) :
  let result := lambda_handler json_loads uuid4 event w in
  store_step (route_key_of event) (uuid4 (uuid_calls w)) (table w)
    (fst result) (table (snd result))
  /\ (forall r : string,
        r ∈ ["GET /tasks/{id}"; "GET /tasks"] ->
        route_key_of event = VStr r ->
        table (snd result) = table w)
  /\ (forall env : envelope,
        fst result = Return env ->
        statusCode env ∈ [400; 404; 500] ->
        table (snd result) = table w).
Proof.
  intros result. subst result.
  pose proof (lambda_handler_step json_loads uuid4 event w) as Hstep.
  split; [exact Hstep|]. split.
  - intros r Hr Hroute. rewrite Hroute in Hstep.
    rewrite !elem_of_cons, elem_of_nil in Hr.
    inversion Hstep as [o | d Hr' | k attrs d Hr' | k attrs Hr']; try reflexivity;
      destruct Hr as [-> | [-> | []]]; discriminate Hr'.
  - intros env Henv Hstatus. rewrite Henv in Hstep.
    rewrite !elem_of_cons, elem_of_nil in Hstatus.
    inversion Hstep as [o | d Hr' Hvalid Ho | k attrs d Hr' Hk Hs Ho | k attrs Hr' Hk Ho];
      try reflexivity; subst env; cbn [statusCode response] in Hstatus;
      destruct Hstatus as [E | [E | [E | []]]]; discriminate E.
Qed.

(** ** The shape of the stored records *)

Lemma dict_set_keys (d : dict) (k : string) (v : value) :
  k ∈ map fst d -> map fst (dict_set d k v) = map fst d.
Proof.
  induction d as [|[k' v'] d IH]; cbn [map fst dict_set].
  - intros Hin. by apply elem_of_nil in Hin.
  - intros Hin. destruct (String.eqb_spec k' k) as [->|Hne]; [reflexivity|].
    cbn [map fst]. f_equal. apply IH.
    apply elem_of_cons in Hin as [->|Hin]; [contradiction | exact Hin].
Qed.

Lemma apply_assignments_keys (assignments : list (string * value)) (attrs : dict) :
  (forall a, a ∈ assignments -> fst a ∈ map fst attrs) ->
  map fst (apply_assignments attrs assignments) = map fst attrs.
Proof.
  unfold apply_assignments. revert attrs.
  induction assignments as [|a assignments IH]; intros attrs Hin; [reflexivity|].
  cbn [foldl].
  assert (Hkeys : map fst (dict_set attrs (fst a) (snd a)) = map fst attrs)
    by (apply dict_set_keys, Hin; left).
  rewrite IH; [exact Hkeys|].
  intros a' Ha'. rewrite Hkeys. apply Hin. by right.
Qed.

Lemma field_map_keys (d : dict) (a : string * value) :
  a ∈ field_map d -> fst a ∈ updatable.
Proof.
  unfold field_map. rewrite list_elem_of_In, in_map_iff.
  intros (f & <- & Hf). apply list_elem_of_In in Hf.
  by apply supplied_spec in Hf as [? _].
Qed.

Lemma store_step_well_shaped (route_key : value) (fresh : string) (t t' : mem_table)
    (o : outcome envelope) :
  store_step route_key fresh t o t' -> well_shaped t -> well_shaped t'.
Proof.
  intros Hstep Hshaped.
  inversion Hstep as [o' | d Hr Hvalid | k attrs d Hr Hk Hs | k attrs Hr Hk]; subst.
  - exact Hshaped.
  - intros k attrs. rewrite lookup_insert. case_decide.
    + intros [= <-]. reflexivity.
    + apply Hshaped.
  - intros k' attrs'. rewrite lookup_insert. case_decide.
    + intros [= <-]. rewrite apply_assignments_keys; [by apply Hshaped with k|].
      intros a Ha. rewrite (Hshaped k attrs Hk). by apply field_map_keys with d.
    + apply Hshaped.
  - intros k' attrs'. rewrite lookup_delete. case_decide; [discriminate|].
    apply Hshaped.
Qed.

(** X8: on the store, for any decoder and event, [lambda_handler] keeps the
    shape of the records: when every stored record has exactly the
    attributes [title], [description], [date], in this order, then so has
    every record stored after the call, and every task a listing gives has
    the keys [id], [title], [description], [date].  The empty store has the
    shape. *)
Theorem lambda_handler_keeps_shape
    (json_loads : string -> outcome value) (uuid4 : nat -> string)
    (event : dict) (w : world mem_table) :
  well_shaped (table w) ->
  let t' := table (snd (lambda_handler json_loads uuid4 event w)) in
  well_shaped t'
  /\ (forall item : value,
        item ∈ mem_items t' ->
        exists (k : string) (attrs : dict),
          item = VDict (("id", VStr k) :: attrs)
          /\ map fst (("id", VStr k) :: attrs) = "id" :: updatable)
  /\ well_shaped (∅ : mem_table).
Proof.
  intros Hshaped t'.
  assert (Hshaped' : well_shaped t')
    by (eapply store_step_well_shaped; [apply lambda_handler_step | exact Hshaped]).
  split; [exact Hshaped'|]. split.
  - intros item Hitem. apply elem_of_mem_items in Hitem as (k & attrs & Hk & ->).
    exists k, attrs. split; [reflexivity|]. cbn [map fst]. f_equal.
    by apply Hshaped' with k.
  - intros k attrs Hk. by rewrite lookup_empty in Hk.
Qed.

(** From one well-shaped record, a [PUT] whose body is the empty object
    (answered 400) leaves the store well-shaped. *)
Lemma put_keeps_shape :
  let stored := [("title", VStr "Buy milk"); ("description", VStr EmptyString);
                 ("date", VStr "2025-12-04")] in
  let event := [("routeKey", VStr "PUT /tasks/{id}");
                ("pathParameters", VDict [("id", VStr "t1")]);
                ("body", VStr "{}")] in
  let w := World ({["t1" := stored]} : mem_table) 0%nat [] in
  well_shaped (table (snd (lambda_handler sample_loads (fun n => pretty n) event w))).
Proof.
  intros stored event w.
  refine (proj1 (lambda_handler_keeps_shape sample_loads (fun n => pretty n) event w _)).
  intros k attrs Hk. cbn [table w] in Hk.
  apply lookup_singleton_Some in Hk as [_ <-]. reflexivity.
Defined.

(** ** Operations one after the other, on the store *)

Lemma update_task_stored (k : string) (d attrs : dict) (w : world mem_table) :
  table w !! k = Some attrs ->
  supplied d <> [] ->
  update_task (VStr k) (VDict d) w
  = (Return (response 200 (item_of k (apply_assignments attrs (field_map d)))),
     with_table w (<[k := apply_assignments attrs (field_map d)]> (table w))).
Proof.
  intros Hk Hsome. rewrite update_task_dict.
  destruct (supplied d) as [|f fs] eqn:Hs; [contradiction|].
  change (update_item [("id", VStr k)] (expression_of d) (values_of d) "ALL_NEW" (table w))
    with (mem_update_item [("id", VStr k)] (expression_of d) (values_of d) "ALL_NEW"
            (table w)).
  rewrite mem_update_item_supplied by (rewrite Hs; discriminate).
  cbn iota. rewrite Hk. reflexivity.
Qed.

Lemma dict_set_same (d : dict) (k : string) (v : value) :
  dict_lookup d k = Some v -> dict_set d k v = d.
Proof.
  induction d as [|[k' v'] d IH]; cbn [dict_lookup dict_set]; [discriminate|].
  destruct (String.eqb k' k); [by intros [= ->] | intros Hk; by rewrite IH].
Qed.

Lemma apply_assignments_same (assignments : list (string * value)) (attrs : dict) :
  (forall a, a ∈ assignments -> dict_lookup attrs (fst a) = Some (snd a)) ->
  apply_assignments attrs assignments = attrs.
Proof.
  unfold apply_assignments.
  induction assignments as [|a assignments IH]; intros Hin; [reflexivity|].
  cbn [foldl]. rewrite dict_set_same by (apply Hin; left).
  apply IH. intros a' Ha'. apply Hin. by right.
Qed.

Lemma apply_assignments_twice (d attrs : dict) :
  apply_assignments (apply_assignments attrs (field_map d)) (field_map d)
  = apply_assignments attrs (field_map d).
Proof.
  apply apply_assignments_same. intros a Ha.
  unfold field_map in *. apply list_elem_of_In, in_map_iff in Ha as (f & <- & Hf).
  cbn [fst snd]. rewrite (apply_assignments_lookup (dict_get d)).
  rewrite decide_True; [reflexivity | by apply list_elem_of_In].
Qed.

(** X9: on the store, after an update of a stored record with at least one
    field supplied, [get_task] on the id returns the very envelope the
    update returned, and the same update once more returns it again and
    leaves the store as the first left it: [update_task] can be repeated. *)
Theorem update_task_read_back (k : string) (d attrs : dict) (w : world mem_table) :
  table w !! k = Some attrs ->
  supplied d <> [] ->
  let result := update_task (VStr k) (VDict d) w in
  (exists attrs' : dict,
      fst result = Return (response 200 (item_of k attrs'))
      /\ table (snd result) !! k = Some attrs')
  /\ get_task (VStr k) (snd result) = result
  /\ update_task (VStr k) (VDict d) (snd result) = result.
Proof.
  intros Hk Hsome result. subst result.
  rewrite (update_task_stored k d attrs w Hk Hsome). cbn [fst snd].
  set (attrs' := apply_assignments attrs (field_map d)).
  set (w1 := with_table w (<[k := attrs']> (table w))).
  assert (Hk1 : table w1 !! k = Some attrs') by (cbn; apply lookup_insert_eq).
  split; [exists attrs'; split; [reflexivity | exact Hk1]|]. split.
  - by apply get_task_present.
  - rewrite (update_task_stored k d attrs' w1 Hk1 Hsome).
    subst attrs'. rewrite apply_assignments_twice. subst w1.
    unfold with_table. cbn [table uuid_calls stdout]. rewrite insert_insert_eq.
    reflexivity.
Qed.

(** Reading back an update of the description. *)
Lemma update_description_read_back :
  let stored := [("title", VStr "Buy milk"); ("description", VStr EmptyString);
                 ("date", VStr "2025-12-04")] in
  let w := World ({["t1" := stored]} : mem_table) 0%nat [] in
  let result := update_task (VStr "t1") (VDict [("description", VStr "2L")]) w in
  get_task (VStr "t1") (snd result) = result.
Proof.
  intros stored w result.
  refine (proj1 (proj2
    (update_task_read_back "t1" [("description", VStr "2L")] stored w _ _))).
  - reflexivity.
  - vm_compute. discriminate.
Defined.

Lemma create_task_stored (uuid4 : nat -> string) (d : dict) (w : world mem_table) :
  truthy (dict_get d "title") && truthy (dict_get d "date") = true ->
  create_task uuid4 (VDict d) w
  = (Return (response 201 (VDict (created_record (uuid4 (uuid_calls w)) d))),
     with_table (after_uuid w)
       (<[uuid4 (uuid_calls w) := created_attrs d]> (table w))).
Proof. intros Hvalid. rewrite create_task_dict, Hvalid. reflexivity. Qed.

(** X10: on the store, two creates in a row with valid bodies are both
    answered 201, the first with the UUID of the current draw and the second
    with the next.  The second record is stored under its id; the first is
    still stored under its id when the two UUIDs differ, as they do when
    draws never repeat.  [create_task] does not look for a record under the
    id: were a UUID drawn twice, the second create would replace the first
    record and still answer 201. *)
Theorem create_task_twice (uuid4 : nat -> string) (d1 d2 : dict) (w : world mem_table) :
  truthy (dict_get d1 "title") && truthy (dict_get d1 "date") = true ->
  truthy (dict_get d2 "title") && truthy (dict_get d2 "date") = true ->
  let id1 := uuid4 (uuid_calls w) in
  let id2 := uuid4 (S (uuid_calls w)) in
  let run := (do r1 <- create_task uuid4 (VDict d1);
              do r2 <- create_task uuid4 (VDict d2);
              ret (r1, r2)) w in
  fst run = Return (response 201 (VDict (created_record id1 d1)),
                    response 201 (VDict (created_record id2 d2)))
  /\ uuid_calls (snd run) = S (S (uuid_calls w))
  /\ table (snd run) !! id2 = Some (created_attrs d2)
  /\ (id1 <> id2 -> table (snd run) !! id1 = Some (created_attrs d1))
  /\ (Inj (=) (=) uuid4 -> id1 <> id2)
  /\ (id1 = id2 -> table (snd run) = <[id1 := created_attrs d2]> (table w)).
Proof.
  intros Hv1 Hv2 id1 id2 run.
  assert (Hrun : run
    = (Return (response 201 (VDict (created_record id1 d1)),
               response 201 (VDict (created_record id2 d2))),
       World (<[id2 := created_attrs d2]> (<[id1 := created_attrs d1]> (table w)))
             (S (S (uuid_calls w))) (stdout w))).
  { subst run. unfold bind at 1.
    rewrite (create_task_stored uuid4 d1 w Hv1). unfold bind at 1.
    rewrite create_task_stored by exact Hv2. reflexivity. }
  rewrite Hrun. cbn [fst snd table uuid_calls].
  split; [reflexivity|]. split; [reflexivity|].
  split; [apply lookup_insert_eq|]. split; [|split].
  - intros Hne. rewrite lookup_insert_ne by congruence. apply lookup_insert_eq.
  - intros Hinj E. apply Hinj in E. lia.
  - intros <-. apply insert_insert_eq.
Qed.

(** Two tasks created on the empty store. *)
Lemma create_two_tasks :
  let uuid4 := fun n : nat => pretty n in
  let d1 := [("title", VStr "Buy milk"); ("date", VStr "2025-12-04")] in
  let d2 := [("title", VStr "Pay rent"); ("date", VStr "2025-12-05")] in
  let w := World (∅ : mem_table) 0%nat [] in
  let run := (do r1 <- create_task uuid4 (VDict d1);
              do r2 <- create_task uuid4 (VDict d2);
              ret (r1, r2)) w in
  table (snd run) !! "0" = Some (created_attrs d1)
  /\ table (snd run) !! "1" = Some (created_attrs d2).
Proof.
  intros uuid4 d1 d2 w run.
  pose proof (create_task_twice uuid4 d1 d2 w eq_refl eq_refl)
    as (_ & _ & Hsecond & Hfirst & Hdiffer & _).
  split; [apply Hfirst, Hdiffer, pretty_nat_inj | exact Hsecond].
Defined.

(** X11: on the store, a create with a valid body under an id that had no
    record, followed by a delete of that id, leaves the store exactly as it
    was before the create; the create answers 201 and the delete 204. *)
Theorem create_then_delete (uuid4 : nat -> string) (d : dict) (w : world mem_table) :
  truthy (dict_get d "title") && truthy (dict_get d "date") = true ->
  table w !! uuid4 (uuid_calls w) = None ->
  let task_id := uuid4 (uuid_calls w) in
  let run := (do r1 <- create_task uuid4 (VDict d);
              do r2 <- delete_task (VStr task_id);
              ret (r1, r2)) w in
  run = (Return (response 201 (VDict (created_record task_id d)),
                 response 204 (VDict [])),
         after_uuid w).
Proof.
  intros Hvalid Hfree task_id run. subst run. unfold bind at 1.
  rewrite (create_task_stored uuid4 d w Hvalid). fold task_id. unfold bind at 1.
  rewrite (delete_task_present task_id (created_attrs d))
    by (cbn; apply lookup_insert_eq).
  cbn [ret with_table after_uuid table uuid_calls stdout].
  rewrite delete_insert_id by exact Hfree. reflexivity.
Qed.

(** A task created on the empty store and deleted again. *)
Lemma create_then_delete_on_empty :
  let uuid4 := fun n : nat => pretty n in
  let d := [("title", VStr "Buy milk"); ("date", VStr "2025-12-04")] in
  let w := World (∅ : mem_table) 0%nat [] in
  snd ((do r1 <- create_task uuid4 (VDict d);
        do r2 <- delete_task (VStr "0");
        ret (r1, r2)) w)
  = World (∅ : mem_table) 1%nat [].
Proof.
  intros uuid4 d w.
  exact (f_equal snd (create_then_delete uuid4 d w eq_refl eq_refl)).
Defined.

Lemma get_tasks_by_date_string (s : string) (w : world mem_table) :
  s <> EmptyString ->
  get_tasks_by_date (VDict [("date", VStr s)]) w
  = (Return (response 200
               (VList (filter (fun item => satisfies (AttrEq "date" (VStr s)) item = true)
                              (mem_items (table w))))),
     w).
Proof.
  intros Hs. destruct s as [|c s]; [contradiction|].
  unfold get_tasks_by_date, bind, lift, ret, on_table. cbn.
  fold (with_table w (table w)). rewrite with_table_same. reflexivity.
Qed.

(** X12: on the store, a task created with a title and a date that is a
    non-empty string is in the listing of that date and in the listing of
    all tasks right after the create; after a delete of its id no task of
    that id is in the listing of the date. *)
Theorem listing_follows_create_and_delete
    (uuid4 : nat -> string) (d : dict) (s : string) (w : world mem_table) :
  truthy (dict_get d "title") = true ->
  dict_get d "date" = VStr s ->
  s <> EmptyString ->
  let task_id := uuid4 (uuid_calls w) in
  let record := VDict (created_record task_id d) in
  let w1 := snd (create_task uuid4 (VDict d) w) in
  let w2 := snd (delete_task (VStr task_id) w1) in
  (exists items : list value,
      get_tasks_by_date (VDict [("date", VStr s)]) w1
      = (Return (response 200 (VList items)), w1)
      /\ record ∈ items)
  /\ record ∈ mem_items (table w1)
  /\ (exists items : list value,
        get_tasks_by_date (VDict [("date", VStr s)]) w2
        = (Return (response 200 (VList items)), w2)
        /\ forall attrs : dict, item_of task_id attrs ∉ items).
Proof.
  intros Htitle Hdate Hs task_id record w1 w2.
  assert (Hvalid : truthy (dict_get d "title") && truthy (dict_get d "date") = true).
  { rewrite Htitle, Hdate. destruct s; [contradiction | reflexivity]. }
  assert (Hw1 : w1 = with_table (after_uuid w) (<[task_id := created_attrs d]> (table w)))
    by (subst w1; rewrite (create_task_stored uuid4 d w Hvalid); reflexivity).
  assert (Hk1 : table w1 !! task_id = Some (created_attrs d))
    by (rewrite Hw1; cbn; apply lookup_insert_eq).
  assert (Hin : record ∈ mem_items (table w1))
    by (apply elem_of_mem_items; exists task_id, (created_attrs d); by split).
  assert (Hw2 : table w2 = delete task_id (table w1))
    by (subst w2; rewrite (delete_task_present task_id (created_attrs d) w1 Hk1);
        reflexivity).
  split; [|split; [exact Hin|]].
  - eexists. split; [by apply get_tasks_by_date_string|].
    apply list_elem_of_filter. split; [|exact Hin].
    apply (satisfies_date s task_id (created_attrs d)).
    unfold created_attrs. cbn. by rewrite Hdate.
  - eexists. split; [by apply get_tasks_by_date_string|].
    intros attrs Hitem. apply list_elem_of_filter in Hitem as [_ Hitem].
    apply elem_of_mem_items in Hitem as (k & attrs' & Hk & Heq).
    apply item_of_inj in Heq as [<- _].
    rewrite Hw2, lookup_delete_eq in Hk. discriminate.
Qed.

(** A task of 2025-12-04 is listed under that date once created. *)
Lemma created_task_is_listed :
  let uuid4 := fun n : nat => pretty n in
  let d := [("title", VStr "Buy milk"); ("date", VStr "2025-12-04")] in
  let w := World (∅ : mem_table) 0%nat [] in
  VDict (created_record "0" d) ∈ mem_items (table (snd (create_task uuid4 (VDict d) w))).
Proof.
  intros uuid4 d w.
  refine (proj1 (proj2
    (listing_follows_create_and_delete uuid4 d "2025-12-04" w _ _ _))).
  - reflexivity.
  - reflexivity.
  - discriminate.
Defined.

(** ** Failures of the table *)



(** ** The characters of a body *)

Lemma ascii_only_app (a b : string) :
  ascii_only (a +:+ b) = ascii_only a && ascii_only b.
Proof.
  induction a as [|c a IH]; [reflexivity|].
  simpl. rewrite IH. apply andb_assoc.
Qed.

Lemma ascii_only_escape_char (c : ascii) : ascii_only (escape_char c) = true.
Proof. destruct c as [[] [] [] [] [] [] [] []]; vm_compute; reflexivity. Qed.

Lemma ascii_only_escape_string (s : string) : ascii_only (escape_string s) = true.
Proof.
  induction s as [|c s IH]; [reflexivity|].
  cbn [escape_string]. by rewrite ascii_only_app, ascii_only_escape_char, IH.
Qed.

Lemma ascii_only_encode (s : string) : ascii_only (encode_basestring_ascii s) = true.
Proof.
  unfold encode_basestring_ascii.
  by rewrite !ascii_only_app, ascii_only_escape_string.
Qed.

Lemma printable_pretty_N_char (x : N) : printable (pretty_N_char x) = true.
Proof. unfold pretty_N_char. repeat case_match; reflexivity. Qed.

Lemma ascii_only_pretty_N_go (x : N) (s : string) :
  ascii_only s = true -> ascii_only (pretty_N_go x s) = true.
Proof.
  revert s. induction (N.lt_wf_0 x) as [x _ IH]; intros s Hs.
  destruct (N.eq_dec x 0%N) as [->|Hx].
  - by rewrite pretty_N_go_0.
  - rewrite pretty_N_go_step by lia.
    apply IH; [apply N.div_lt; lia|].
    cbn [ascii_only]. by rewrite printable_pretty_N_char, Hs.
Qed.

Lemma ascii_only_pretty_Z (n : Z) : ascii_only (pretty n) = true.
Proof.
  destruct n as [|p|p]; unfold pretty, pretty_Z; [reflexivity| |];
    unfold pretty, pretty_positive, pretty, pretty_N;
    destruct (decide (N.pos p = 0%N)) as [E|_]; try discriminate E;
    rewrite ?ascii_only_app; cbn [ascii_only printable]; 
    rewrite ?ascii_only_pretty_N_go; reflexivity.
Qed.

Lemma ascii_only_concat (sep : string) (l : list string) :
  ascii_only sep = true ->
  Forall (fun s => ascii_only s = true) l ->
  ascii_only (String.concat sep l) = true.
Proof.
  intros Hsep Hl. induction Hl as [|s l Hs Hl IH]; [reflexivity|].
  destruct l as [|s' l]; [exact Hs|].
  cbn [String.concat]. rewrite !ascii_only_app, Hs, Hsep. exact IH.
Qed.

Lemma ascii_only_json_dumps (v : value) : ascii_only (json_dumps v) = true.
Proof.
  revert v. fix IH 1. intros [| [|] | n | s | l | d]; try reflexivity.
  - apply ascii_only_pretty_Z.
  - apply ascii_only_encode.
  - cbn [json_dumps]. rewrite !ascii_only_app. cbn [ascii_only printable].
    rewrite ascii_only_concat; [reflexivity | reflexivity |].
    induction l as [|x l IHl]; constructor; [apply IH | exact IHl].
  - cbn [json_dumps]. rewrite !ascii_only_app. cbn [ascii_only printable].
    rewrite ascii_only_concat; [reflexivity | reflexivity |].
    induction d as [|[k x] d IHd]; constructor; [|exact IHd].
    cbn [fst snd]. rewrite !ascii_only_app, ascii_only_encode, IH. reflexivity.
Qed.

(** X14: the body of every envelope [response] builds is made of the
    characters from the space to the tilde only, whatever the value and the
    status code: [json.dumps] escapes every other character of a string, so
    the accented letters of the messages travel as [\u00..] escapes. *)
Theorem response_body_is_ascii (status_code : Z) (v : value) :
  ascii_only (body (response status_code v)) = true
  /\ body (response 404 (message msg_task_not_found))
     = "{" +:+ dquote +:+ "message" +:+ dquote +:+ ": " +:+ dquote +:+ "Tarefa n"
           +:+ backslash +:+ "u00e3o encontrada." +:+ dquote +:+ "}".
Proof. split; [apply ascii_only_json_dumps | reflexivity]. Qed.

(** ** The body of a 204 *)

Lemma delete_task_204 {T : Type} `{Table T} (task_id : value) (w w' : world T)
    (env : envelope) :
  delete_task task_id w = (Return env, w') ->
  statusCode env = 204 ->
  env = response 204 (VDict []).
Proof.
  unfold delete_task, bind, on_table, ret.
  destruct (get_item [("id", task_id)] (table w)) as [[result|e] t1]; [|discriminate].
  destruct (negb (dict_mem result "Item")).
  - intros [= <- _]. discriminate.
  - cbn [table]. destruct (delete_item [("id", task_id)] t1) as [[r|e] t2];
      [|discriminate].
    intros [= <- _] _. reflexivity.
Qed.

Lemma with_task_id_204 {T : Type} `{Table T} (path_params : value)
    (operation : value -> M T envelope) (w w' : world T) (env : envelope) :
  with_task_id path_params operation w = (Return env, w') ->
  statusCode env = 204 ->
  exists task_id : value, operation task_id w = (Return env, w').
Proof.
  unfold with_task_id, bind, lift, ret.
  destruct (py_get path_params "id") as [task_id|e]; [|discriminate].
  destruct (negb (truthy task_id)); [intros [= <- _]; discriminate|].
  intros Hrun _. by exists task_id.
Qed.

Lemma dispatch_204 {T : Type} `{Table T} (uuid4 : nat -> string)
    (route_key path_params query_params body : value) (w w' : world T)
    (env : envelope) :
  dispatch uuid4 route_key path_params query_params body w = (Return env, w') ->
  statusCode env = 204 ->
  route_key = VStr "DELETE /tasks/{id}" /\ env = response 204 (VDict []).
Proof.
  unfold dispatch. intros Hrun H204.
  destruct (py_eq_str route_key "POST /tasks").
  { apply answers_create_task in Hrun. rewrite H204 in Hrun.
    rewrite !elem_of_cons, elem_of_nil in Hrun. destruct Hrun as [E|[E|[]]]; discriminate E. }
  destruct (py_eq_str route_key "GET /tasks/{id}").
  { apply with_task_id_204 in Hrun as [task_id Hrun]; [|exact H204].
    apply answers_get_task in Hrun. rewrite H204 in Hrun.
    rewrite !elem_of_cons, elem_of_nil in Hrun. destruct Hrun as [E|[E|[]]]; discriminate E. }
  destruct (py_eq_str route_key "PUT /tasks/{id}").
  { apply with_task_id_204 in Hrun as [task_id Hrun]; [|exact H204].
    apply answers_update_task in Hrun. rewrite H204 in Hrun.
    rewrite !elem_of_cons, elem_of_nil in Hrun.
    destruct Hrun as [E|[E|[E|[]]]]; discriminate E. }
  destruct (py_eq_str route_key "DELETE /tasks/{id}") eqn:Hroute.
  { apply py_eq_str_true in Hroute.
    apply with_task_id_204 in Hrun as [task_id Hrun]; [|exact H204].
    split; [exact Hroute | by apply delete_task_204 in Hrun]. }
  destruct (py_eq_str route_key "GET /tasks").
  - unfold bind, lift in Hrun.
    destruct (py_in "date" query_params) as [[|]|e]; [| |discriminate].
    + apply answers_get_tasks_by_date in Hrun. rewrite H204 in Hrun.
      rewrite !elem_of_cons, elem_of_nil in Hrun.
      destruct Hrun as [E|[E|[]]]; discriminate E.
    + unfold on_table, ret in Hrun. destruct (scan None (table w)) as [[r|e] t'];
        [|discriminate].
      injection Hrun as <- _. discriminate.
  - injection Hrun as <- _. discriminate.
Qed.

(** C6: the code breaks the claim at every 204 it sends.  The builder has
    no way to an empty body: whatever the status and the value, the
    serialized body is not the empty string.  On any table, for any decoder
    and event, an envelope of status 204 that [lambda_handler] returns comes
    from [delete_task] on the route [DELETE /tasks/{id}], is
    [response(204, {})], the call the source comments "sem corpo", and its
    body is the two characters of the empty object.  So it is for the
    [DELETE] of a stored task. *)
Theorem status_204_carries_body :
  (forall (status_code : Z) (v : value), body (response status_code v) <> EmptyString)
  /\ (forall (T : Type) (tbl : Table T) (json_loads : string -> outcome value)
        (uuid4 : nat -> string) (event : dict) (w : world T) (env : envelope),
        fst (lambda_handler json_loads uuid4 event w) = Return env ->
        statusCode env = 204 ->
        route_key_of event = VStr "DELETE /tasks/{id}"
        /\ env = response 204 (VDict [])
        /\ body env = "{}"
        /\ body env <> EmptyString)
  /\ (let stored := [("title", VStr "Buy milk"); ("description", VStr "2L");
                     ("date", VStr "2025-12-04")] in
      let event := [("routeKey", VStr "DELETE /tasks/{id}");
                    ("pathParameters", VDict [("id", VStr "t1")])] in
      let w := World ({["t1" := stored]} : mem_table) 0%nat [] in
      lambda_handler sample_loads (fun n => pretty n) event w
      = (Return {| statusCode := 204;
                   headers := [("Content-Type", "application/json");
                               ("Access-Control-Allow-Origin", "*")];
                   body := "{}" |},
         World (∅ : mem_table) 0%nat [received_line event])).
Proof.
  split; [intros status_code v; apply json_dumps_nonempty|]. split.
  - intros T tbl json_loads uuid4 event w env Hrun H204.
    rewrite lambda_handler_handle in Hrun. unfold handle_with_body in Hrun.
    destruct (dispatch _ _ _ _ _ _) as [[env'|e] w'] eqn:Hdispatch; cbn [fst] in Hrun.
    + injection Hrun as ->.
      destruct (dispatch_204 _ _ _ _ _ _ _ _ Hdispatch H204) as [Hroute ->].
      repeat split; [exact Hroute | discriminate].
    + injection Hrun as <-. discriminate H204.
  - vm_compute. reflexivity.
Qed.
